(** * telegrambot.py: session flags, position ledger and price alerts

    A shallow embedding of [src/telegrambot.py].  The four global
    dictionaries and the per-user [context.user_data] dictionaries are
    finite maps; Python floats are binary64 primitive floats; every handler
    is a computation in a small state-and-exception monad, so a handler
    that raises keeps the mutations it made before raising, exactly as the
    Python dictionaries do.  Everything the bot obtains from outside the
    file (HTTP, RPC, key decoding, [float()], the clock) is read from a
    [World] record. *)

From Stdlib Require Import ZArith String Ascii List Bool.
From Stdlib Require Import Floats.PrimFloat Floats.FloatOps Floats.SpecFloat.
From stdpp Require Import gmap strings list fin_maps option.

Set Warnings "-register-all".
Open Scope string_scope.
Open Scope list_scope.
Open Scope stdpp_scope.

(** ** Python strings (ASCII fragment) *)

Module PyStr.

(** [s.startswith(p)] *)
Fixpoint startswith (p s : string) : bool :=
  match p, s with
  | EmptyString, _ => true
  | String _ _, EmptyString => false
  | String a p', String b s' => if Ascii.eqb a b then startswith p' s' else false
  end.

(** [needle in hay] *)
Fixpoint contains (needle hay : string) : bool :=
  match hay with
  | EmptyString => startswith needle EmptyString
  | String _ hay' => startswith needle hay || contains needle hay'
  end.

Definition lower_ascii (c : ascii) : ascii :=
  let n := nat_of_ascii c in
  if (65 <=? n)%nat && (n <=? 90)%nat then ascii_of_nat (n + 32) else c.

(** [s.lower()], on ASCII letters. *)
Fixpoint lower (s : string) : string :=
  match s with
  | EmptyString => EmptyString
  | String c s' => String (lower_ascii c) (lower s')
  end.

(** [s.split(sep)] for a one-character separator. *)
Fixpoint split (sep : ascii) (s : string) : list string :=
  match s with
  | EmptyString => [EmptyString]
  | String c s' =>
      if Ascii.eqb c sep then EmptyString :: split sep s'
      else match split sep s' with
           | h :: t => String c h :: t
           | [] => [String c EmptyString]
           end
  end.

(** Characters for which [str.isspace] holds in ASCII. *)
Definition is_space (c : ascii) : bool :=
  let n := nat_of_ascii c in
  ((9 <=? n)%nat && (n <=? 13)%nat) || ((28 <=? n)%nat && (n <=? 32)%nat).

Fixpoint lstrip (s : string) : string :=
  match s with
  | EmptyString => EmptyString
  | String c s' => if is_space c then lstrip s' else s
  end.

Fixpoint rev_append (s acc : string) : string :=
  match s with
  | EmptyString => acc
  | String c s' => rev_append s' (String c acc)
  end.

Definition rev (s : string) : string := rev_append s EmptyString.

(** [s.strip()], for ASCII white space; the Unicode white space that
    [str.strip] also removes is outside this fragment. *)
Definition strip (s : string) : string := rev (lstrip (rev (lstrip s))).

(** [s[:n]] *)
Fixpoint take (n : nat) (s : string) : string :=
  match n, s with
  | S n', String c s' => String c (take n' s')
  | _, _ => EmptyString
  end.

End PyStr.

(** ** Exceptions *)

Inductive ExnClass :=
| ValueError | OverflowError | TypeError | KeyError | IndexError
| AttributeError | RPCException | OtherException.

Global Instance ExnClass_eq_dec : EqDecision ExnClass.
Proof. solve_decision. Defined.

(** A raised exception: its class and [str(e)]. *)
Record Exn := mkExn { exn_class : ExnClass; exn_msg : string }.

(** ** Python floats *)

Module PyFloat.

(** [bool(x)] for a float: false exactly for [0.0] and [-0.0]. *)
Definition truthy (x : float) : bool := negb (PrimFloat.eqb x 0%float).

(** [int(x)]: truncation towards zero; [ValueError] on NaN and
    [OverflowError] on an infinity. *)
Definition to_int (x : float) : Exn + Z :=
  match Prim2SF x with
  | S754_zero _ => inr 0%Z
  | S754_nan => inl (mkExn ValueError "cannot convert float NaN to integer")
  | S754_infinity _ =>
      inl (mkExn OverflowError "cannot convert float infinity to integer")
  | S754_finite sign m e =>
      let v := if (0 <=? e)%Z then (Z.pos m * 2 ^ e)%Z
               else (Z.pos m / 2 ^ (- e))%Z in
      inr (if sign then (- v)%Z else v)
  end.

(** [float(n)] for an integer [n], rounding to nearest even. *)
Definition of_int (n : Z) : float :=
  SF2Prim (binary_normalize prec emax n 0 false).

(** The accumulation [total = 0.0; for x in xs: total += x]: repeated
    binary64 addition, left to right.  It is also what the builtin
    [sum(xs)] computes on CPython up to 3.11. *)
Definition sum (xs : list float) : float :=
  fold_left PrimFloat.add xs 0%float.

(** The float loop of the builtin [sum] from CPython 3.12 on
    (Neumaier's compensated summation): [acc] is the running sum and [c]
    the running compensation. *)
Fixpoint neumaier (xs : list float) (acc c : float) : float * float :=
  match xs with
  | [] => (acc, c)
  | x :: xs' =>
      let t := PrimFloat.add acc x in
      let c' :=
        if PrimFloat.leb (PrimFloat.abs x) (PrimFloat.abs acc)
        then PrimFloat.add c (PrimFloat.add (PrimFloat.sub acc t) x)
        else PrimFloat.add c (PrimFloat.add (PrimFloat.sub x t) acc) in
      neumaier xs' t c'
  end.

(** [sum(xs)] on CPython 3.12 and later: the first float is added to the
    integer [0], the others go through the compensated loop, and the
    compensation is added at the end when it is non-zero and finite. *)
Definition sum_compensated (xs : list float) : float :=
  match xs with
  | [] => 0%float
  | x :: xs' =>
      let r := neumaier xs' (PrimFloat.add 0%float x) 0%float in
      if truthy (snd r) && PrimFloat.is_finite (snd r)
      then PrimFloat.add (fst r) (snd r)
      else fst r
  end.

End PyFloat.

(** ** Data model *)

(** A [solders] key pair; only its public key is observed. *)
Record Keypair := mkKeypair { kp_secret : string; pubkey : string }.

(** One entry of [positions[user_id]]: the dictionary literal built at
    lines 344-350 and 427-433, which always has these five keys.  The
    purchase price is whatever [.get("price", 0.0)] returned, which can be
    [None]. *)
Record Position := mkPosition {
  amount : float;
  purchase_price : option float;
  signature : string;
  timestamp : float;
  pair : string
}.

(** Parsed JSON as produced by [resp.json()]. *)
Inductive Json :=
| JNull
| JBool (b : bool)
| JNum (x : float)
| JStr (s : string)
| JArr (l : list Json)
| JObj (kv : list (string * Json)).

Fixpoint jlookup (k : string) (kv : list (string * Json)) : option Json :=
  match kv with
  | [] => None
  | (k', v) :: kv' => if String.eqb k k' then Some v else jlookup k kv'
  end.

(** Truth value of a JSON value used as a condition. *)
Definition json_truthy (v : Json) : bool :=
  match v with
  | JNull => false
  | JBool b => b
  | JNum x => PyFloat.truthy x
  | JStr s => negb (String.eqb s "")
  | JArr l => match l with [] => false | _ => true end
  | JObj kv => match kv with [] => false | _ => true end
  end.

(** The system-program transfer instruction built by
    [transfer(TransferParams(...))]. *)
Record TransferParams := mkTransferParams {
  from_pubkey : string;
  to_pubkey : string;
  lamports : Z
}.

Record Transaction := mkTransaction {
  tx_instructions : list TransferParams;
  tx_payer : string;
  tx_recent_blockhash : string;
  tx_signers : list Keypair;
  tx_skip_preflight : bool
}.

(** Calls made on [solana_client]. *)
Inductive RpcCall :=
| GetLatestBlockhash
| SendTransaction (tx : Transaction)
| GetBalance (pk : string).

(** ** The outside world

    One [World] is what the collaborators answer while one update (or one
    alert scan) is being handled. *)
Record World := mkWorld {
  (** [float(s)]; [None] is [ValueError]. *)
  py_float : string -> option float;
  (** The builtin [sum(xs)] for a non-empty list of floats.  Which float
      it returns depends on the interpreter: [PyFloat.sum] up to CPython
      3.11, [PyFloat.sum_compensated] from 3.12 on. *)
  py_sum : list float -> float;
  (** [Keypair.from_bytes(base58.b58decode(s))] *)
  keypair_from_base58 : string -> Exn + Keypair;
  (** [transfer(TransferParams(...))]: [solders] may reject the amount. *)
  transfer : TransferParams -> Exn + TransferParams;
  (** [solana_client.get_latest_blockhash().value.blockhash] *)
  get_latest_blockhash : Exn + string;
  (** [solana_client.send_transaction(tx, opts).value] *)
  send_transaction : Transaction -> Exn + string;
  (** [solana_client.get_balance(pubkey)["result"]["value"]] *)
  get_balance : string -> Exn + Z;
  (** [requests.get(url, timeout=10).json()] *)
  requests_get_json : string -> Exn + Json;
  (** [time.time()] *)
  time_time : float
}.

Definition CHAIN_ID : string := "solana".
Definition DEX_WALLET_STR : string := "5h2rm7GxxAbEP8cHKY1eLZ54Wb8SLF7u2SmbK7gG3J4W".

(** ** Messages sent to the chat

    One constructor per message of the source; the interpolated values
    are the constructor's arguments.  The command and the free-text paths
    word "Error connecting wallet" and "Invalid price" slightly
    differently; each pair shares one constructor. *)

Inductive Side := Purchase | Sale.

(** The [user_friendly] text of a failed transfer: the fixed
    "Insufficient funds for purchase/sale." or "Error during
    purchase/sale: " followed by the raw [str(e)]. *)
Inductive UserFriendly :=
| InsufficientFunds (side : Side)
| ErrorDuring (side : Side) (e : string).

(** The dictionary returned by [execute_buy_transaction] and
    [execute_sell_transaction]: status "ok" with a signature, or status
    "error" with the user-facing text. *)
Inductive TxResult :=
| TxOk (sig : string)
| TxError (err : UserFriendly).

Inductive Reply :=
| MainMenu (wallet_status : option string)
| PromptPrivateKey
| PromptPair
| PromptAlertPrice
| WalletConnected (pubkey7 : string)
| ErrorConnectingWallet (e : string)
| UsageSetpair
| PairSet (pair_id : string)
| NoPairYet
| CurrentPrice (pair_id : string) (p : float)
| Photo (icon : Json)
| CouldNotRetrievePrice
| NoWalletForBalance
| WalletBalance (pk : string) (bal : float)
| NoOpenPositions
| NoPairForPnl
| NoPositionsForPair
| PositionsReport (pair_id : string) (rows : list (Position * float)) (total_pnl : float)
| UsageAlert
| AlertSet (threshold : float)
| InvalidPrice
| ConnectBeforeBuying
| BuyKeyboard
| ConnectBeforeSelling
| SellKeyboard
| ConnectBeforeOperating
| PromptBuyAmount
| PromptSellAmount
| TxFailed (err : UserFriendly)
| PurchaseExecuted (amt : float) (sig : string) (wallet : string)
| NothingToSell
| SellAllExecuted (total : float) (sig : string) (wallet : string)
| SaleExecuted (amt : float) (sig : string) (wallet : string)
| InvalidAmountBuy
| InvalidAmountSell
| AlertFired (pair_id : string) (p : float) (threshold : float).

(** ** Program state

    The four global dictionaries, [context.user_data] of every user, and
    two logs: the messages handed to the chat transport and the RPC calls
    issued. *)
Record State := mkState {
  user_pairs : gmap Z string;
  price_alerts : gmap Z float;
  user_wallets : gmap Z Keypair;
  positions : gmap Z (list Position);
  user_data : gmap Z (gmap string bool);
  outbox : list (Z * Reply);
  rpc_log : list RpcCall
}.

Definition initial_state : State := mkState ∅ ∅ ∅ ∅ ∅ [] [].

Definition set_user_pairs (f : gmap Z string -> gmap Z string) (s : State) : State :=
  mkState (f (user_pairs s)) (price_alerts s) (user_wallets s) (positions s)
          (user_data s) (outbox s) (rpc_log s).
Definition set_price_alerts (f : gmap Z float -> gmap Z float) (s : State) : State :=
  mkState (user_pairs s) (f (price_alerts s)) (user_wallets s) (positions s)
          (user_data s) (outbox s) (rpc_log s).
Definition set_user_wallets (f : gmap Z Keypair -> gmap Z Keypair) (s : State) : State :=
  mkState (user_pairs s) (price_alerts s) (f (user_wallets s)) (positions s)
          (user_data s) (outbox s) (rpc_log s).
Definition set_positions
    (f : gmap Z (list Position) -> gmap Z (list Position)) (s : State) : State :=
  mkState (user_pairs s) (price_alerts s) (user_wallets s) (f (positions s))
          (user_data s) (outbox s) (rpc_log s).
Definition set_user_data
    (f : gmap Z (gmap string bool) -> gmap Z (gmap string bool)) (s : State) : State :=
  mkState (user_pairs s) (price_alerts s) (user_wallets s) (positions s)
          (f (user_data s)) (outbox s) (rpc_log s).
Definition set_outbox (f : list (Z * Reply) -> list (Z * Reply)) (s : State) : State :=
  mkState (user_pairs s) (price_alerts s) (user_wallets s) (positions s)
          (user_data s) (f (outbox s)) (rpc_log s).
Definition set_rpc_log (f : list RpcCall -> list RpcCall) (s : State) : State :=
  mkState (user_pairs s) (price_alerts s) (user_wallets s) (positions s)
          (user_data s) (outbox s) (f (rpc_log s)).

(** [context.user_data.get(k)] as a condition; a missing key is falsy. *)
Definition flag (s : State) (u : Z) (k : string) : bool :=
  match user_data s !! u with
  | Some d => default false (d !! k)
  | None => false
  end.

(** [positions.get(user_id, [])] *)
Definition positions_of (s : State) (u : Z) : list Position :=
  default [] (positions s !! u).

(** [user_pairs.get(user_id, "")] *)
Definition pair_or_empty (s : State) (u : Z) : string :=
  default "" (user_pairs s !! u).

(** ** The handler monad: state plus exceptions *)

Definition M (A : Type) : Type := State -> (Exn + A) * State.

Definition ret {A} (a : A) : M A := fun s => (inr a, s).

Definition bind {A B} (m : M A) (k : A -> M B) : M B :=
  fun s => match m s with
           | (inl e, s') => (inl e, s')
           | (inr a, s') => k a s'
           end.

Definition raise {A} (e : Exn) : M A := fun s => (inl e, s).

Definition lift {A} (r : Exn + A) : M A := fun s => (r, s).

Definition get : M State := fun s => (inr s, s).

Definition modify (f : State -> State) : M unit := fun s => (inr tt, f s).

(** [try: body / except <classes>: handler] *)
Definition try_except {A} (body : M A) (catches : Exn -> bool) (handler : Exn -> M A)
  : M A :=
  fun s => match body s with
           | (inl e, s') => if catches e then handler e s' else (inl e, s')
           | (inr a, s') => (inr a, s')
           end.

Notation "'let*' x ':=' m 'in' k" := (bind m (fun x => k))
  (at level 10, x name, m at level 100, k at level 200).
Notation "m ;; k" := (bind m (fun _ => k))
  (at level 100, k at level 200, right associativity).

Definition except_Exception (_ : Exn) : bool := true.
Definition except_ValueError (e : Exn) : bool :=
  bool_decide (exn_class e = ValueError).
Definition except_RPC_or_Key (e : Exn) : bool :=
  bool_decide (exn_class e = RPCException) || bool_decide (exn_class e = KeyError).

(** [reply_text] / [send_message].  The log records the message under
    the user whose update is being answered (the message itself goes to
    the chat that update came from) or, for an alert, under the user
    whose chat the alert is sent to.  [safe_reply_text] is taken with an
    update that has a message to reply to. *)
Definition reply (u : Z) (r : Reply) : M unit :=
  modify (set_outbox (fun o => o ++ [(u, r)])).

(** [context.user_data[k] = b] in the dictionary of user [u], which is
    created on first use. *)
Definition write_flag (u : Z) (k : string) (b : bool)
    (ud : gmap Z (gmap string bool)) : gmap Z (gmap string bool) :=
  <[u := <[k := b]> (default ∅ (ud !! u))]> ud.

Definition set_flag (u : Z) (k : string) (b : bool) : M unit :=
  modify (set_user_data (write_flag u k b)).

Definition log_rpc (c : RpcCall) : M unit :=
  modify (set_rpc_log (fun l => l ++ [c])).

(** [for x in xs: body(x)] *)
Fixpoint for_each {A} (xs : list A) (body : A -> M unit) : M unit :=
  match xs with
  | [] => ret tt
  | x :: xs' => body x ;; for_each xs' body
  end.

(** ** The handlers *)

Section Handlers.

Context (w : World).

(** The dictionary returned by [get_dexscreener_info] when it is not
    empty. *)
Record Info := mkInfo { price : option float; icon : option Json }.

(** [float(t)] for a string [t], raising [ValueError]. *)
Definition float_of_str (t : string) : Exn + float :=
  match py_float w t with
  | Some x => inr x
  | None => inl (mkExn ValueError "could not convert string to float")
  end.

(** [float(price_usd)] for a truthy JSON value; [None] is an exception. *)
Definition float_of_json (v : Json) : option float :=
  match v with
  | JStr s => py_float w s
  | JNum x => Some x
  | JBool b => Some (if b then 1%float else 0%float)
  | JNull | JArr _ | JObj _ => None
  end.

(** Lines 72-86.  [None] is the empty dictionary [{}]: it is returned
    when "pairs" is missing or empty and whenever anything in the [try]
    block raises (transport error, [data] not an object, "pairs" not a
    list, first pair not an object, [float] failing on the price). *)
Definition get_dexscreener_info (chain_id pair_id : string) : option Info :=
  let url := "https://api.dexscreener.com/latest/dex/pairs/"
             +:+ chain_id +:+ "/" +:+ pair_id in
  match requests_get_json w url with
  | inl _ => None
  | inr (JObj data) =>
      match jlookup "pairs" data with
      | Some (JArr (JObj pair_info :: _)) =>
          let price_usd := jlookup "priceUsd" pair_info in
          let icon := jlookup "icon" pair_info in
          match price_usd with
          | Some v =>
              if json_truthy v then
                match float_of_json v with
                | Some p => Some (mkInfo (Some p) icon)
                | None => None
                end
              else Some (mkInfo None icon)
          | None => Some (mkInfo None icon)
          end
      | _ => None
      end
  | inr _ => None
  end.

(** [info.get("price")] *)
Definition info_price (info : option Info) : option float :=
  match info with
  | Some i => price i
  | None => None
  end.

(** [info.get("price", 0.0)]: the default is used only when the key is
    missing, that is for the empty dictionary. *)
Definition info_price_or_zero (info : option Info) : option float :=
  match info with
  | Some i => price i
  | None => Some 0%float
  end.

(** Lines 89-113 and 115-139, which differ only in the two texts. *)
Definition execute_transaction (side : Side) (amount : float) (user_kp : Keypair)
  : M TxResult :=
  let* n := lift (PyFloat.to_int (PrimFloat.mul amount 1e9%float)) in
  let* instruction :=
    lift (transfer w (mkTransferParams (pubkey user_kp) DEX_WALLET_STR n)) in
  try_except
    (log_rpc GetLatestBlockhash ;;
     let* recent_blockhash := lift (get_latest_blockhash w) in
     let tx := mkTransaction [instruction] (pubkey user_kp) recent_blockhash
                             [user_kp] true in
     log_rpc (SendTransaction tx) ;;
     let* sig := lift (send_transaction w tx) in
     ret (TxOk sig))
    except_Exception
    (fun e =>
       let err_str := PyStr.lower (exn_msg e) in
       let user_friendly :=
         if PyStr.contains "insufficient funds" err_str
         then InsufficientFunds side
         else ErrorDuring side (exn_msg e) in
       ret (TxError user_friendly)).

Definition execute_buy_transaction := execute_transaction Purchase.
Definition execute_sell_transaction := execute_transaction Sale.

(** Lines 142-147. *)
Definition get_balance_solana (pk : string) : M float :=
  try_except
    (log_rpc (GetBalance pk) ;;
     let* balance_lamports := lift (get_balance w pk) in
     ret (PrimFloat.div (PyFloat.of_int balance_lamports) 1e9%float))
    except_RPC_or_Key
    (fun _ => ret 0%float).

(** Lines 150-169. *)
Definition start_command (user_id : Z) : M unit :=
  let* s := get in
  let wallet_status :=
    match user_wallets s !! user_id with
    | Some kp => Some (PyStr.take 7 (pubkey kp))
    | None => None
    end in
  reply user_id (MainMenu wallet_status).

(** Lines 195-208. *)
Definition connectwallet_command (user_id : Z) (args : list string) : M unit :=
  match args with
  | [] =>
      reply user_id PromptPrivateKey ;;
      set_flag user_id "awaiting_connectwallet" true
  | pk_base58 :: _ =>
      try_except
        (let* new_kp := lift (keypair_from_base58 w pk_base58) in
         modify (set_user_wallets (fun m => <[user_id := new_kp]> m)) ;;
         reply user_id (WalletConnected (PyStr.take 7 (pubkey new_kp))))
        except_Exception
        (fun e => reply user_id (ErrorConnectingWallet (exn_msg e))) ;;
      start_command user_id
  end.

(** Lines 210-217. *)
Definition setpair_command (user_id : Z) (args : list string) : M unit :=
  match args with
  | [] => reply user_id UsageSetpair
  | pair_id :: _ =>
      modify (set_user_pairs (fun m => <[user_id := pair_id]> m)) ;;
      reply user_id (PairSet pair_id) ;;
      start_command user_id
  end.

(** Lines 219-238. *)
Definition price_command (user_id : Z) : M unit :=
  let* s := get in
  match user_pairs s !! user_id with
  | None => reply user_id NoPairYet
  | Some pair_id =>
      let info := get_dexscreener_info CHAIN_ID pair_id in
      match info_price info with
      | Some p =>
          reply user_id (CurrentPrice pair_id p) ;;
          match info with
          | Some (mkInfo _ (Some ic)) =>
              if json_truthy ic then reply user_id (Photo ic) else ret tt
          | _ => ret tt
          end
      | None => reply user_id CouldNotRetrievePrice
      end
  end.

(** Lines 240-247. *)
Definition balance_command (user_id : Z) : M unit :=
  let* s := get in
  match user_wallets s !! user_id with
  | None => reply user_id NoWalletForBalance
  | Some kp =>
      let* bal := get_balance_solana (pubkey kp) in
      reply user_id (WalletBalance (pubkey kp) bal)
  end.

(** [a - b] on values that may be [None]: [TypeError] unless both are
    floats. *)
Definition py_sub (a b : option float) : Exn + float :=
  match a, b with
  | Some x, Some y => inr (PrimFloat.sub x y)
  | _, _ => inl (mkExn TypeError "unsupported operand type(s) for -")
  end.

(** The loop of lines 265-272: the rows reported so far and the running
    total. *)
Fixpoint pnl_rows (current_price : option float) (ps : list Position)
    (rows : list (Position * float)) (total_pnl : float)
  : Exn + (list (Position * float) * float) :=
  match ps with
  | [] => inr (rows, total_pnl)
  | pos :: ps' =>
      match py_sub current_price (purchase_price pos) with
      | inl e => inl e
      | inr d =>
          let pnl := PrimFloat.mul d (amount pos) in
          pnl_rows current_price ps' (rows ++ [(pos, pnl)])
                   (PrimFloat.add total_pnl pnl)
      end
  end.

(** Lines 249-274. *)
Definition positions_command (user_id : Z) : M unit :=
  let* s := get in
  match positions s !! user_id with
  | None | Some [] => reply user_id NoOpenPositions
  | Some ps =>
      match user_pairs s !! user_id with
      | None => reply user_id NoPairForPnl
      | Some current_pair =>
          let filtered_positions :=
            List.filter (fun pos => String.eqb (pair pos) current_pair) ps in
          match filtered_positions with
          | [] => reply user_id NoPositionsForPair
          | _ =>
              let current_price :=
                info_price (get_dexscreener_info CHAIN_ID current_pair) in
              let* r := lift (pnl_rows current_price filtered_positions [] 0%float) in
              reply user_id (PositionsReport current_pair (fst r) (snd r))
          end
      end
  end.

(** Lines 276-286. *)
Definition alert_command (user_id : Z) (args : list string) : M unit :=
  match args with
  | [] => reply user_id UsageAlert
  | a :: _ =>
      try_except
        (let* threshold := lift (float_of_str a) in
         modify (set_price_alerts (fun m => <[user_id := threshold]> m)) ;;
         reply user_id (AlertSet threshold))
        except_ValueError
        (fun _ => reply user_id InvalidPrice)
  end.

(** Lines 289-302. *)
Definition buy_command (user_id : Z) : M unit :=
  let* s := get in
  match user_wallets s !! user_id with
  | None => reply user_id ConnectBeforeBuying
  | Some _ => reply user_id BuyKeyboard
  end.

(** Lines 304-318. *)
Definition sell_command (user_id : Z) : M unit :=
  let* s := get in
  match user_wallets s !! user_id with
  | None => reply user_id ConnectBeforeSelling
  | Some _ => reply user_id SellKeyboard
  end.

(** Lines 172-192. *)
Definition handle_main_menu_callback (user_id : Z) (data : string) : M unit :=
  if String.eqb data "menu_connectwallet" then
    reply user_id PromptPrivateKey ;;
    set_flag user_id "awaiting_connectwallet" true
  else if String.eqb data "menu_setpair" then
    reply user_id PromptPair ;;
    set_flag user_id "awaiting_setpair" true
  else if String.eqb data "menu_buy" then buy_command user_id
  else if String.eqb data "menu_sell" then sell_command user_id
  else if String.eqb data "menu_balance" then balance_command user_id
  else if String.eqb data "menu_positions" then positions_command user_id
  else if String.eqb data "menu_alert" then
    reply user_id PromptAlertPrice ;;
    set_flag user_id "awaiting_alert" true
  else ret tt.

(** [xs[1]] *)
Definition index1 (xs : list string) : Exn + string :=
  match xs with
  | _ :: x :: _ => inr x
  | _ => inl (mkExn IndexError "list index out of range")
  end.

(** The price expression of lines 339 and 422:
    [get_dexscreener_info(...).get("price", 0.0) if user_id in user_pairs
    else 0.0]. *)
Definition buy_price (s : State) (user_id : Z) : option float :=
  match user_pairs s !! user_id with
  | Some _ =>
      info_price_or_zero (get_dexscreener_info CHAIN_ID (pair_or_empty s user_id))
  | None => Some 0%float
  end.

(** [positions.setdefault(user_id, []).append(pos)] *)
Definition append_position (user_id : Z) (pos : Position) : M unit :=
  modify (fun s =>
    set_positions (fun m => <[user_id := positions_of s user_id ++ [pos]]> m) s).

(** [pos.get("pair", current_pair) == current_pair]; the key is always
    present. *)
Definition matches (current_pair : string) (pos : Position) : bool :=
  String.eqb (pair pos) current_pair.

(** [sum(pos["amount"] for pos in ...)] of line 363: the start value
    [0] when there is no item, otherwise what the builtin makes of the
    floats. *)
Definition sum_amounts (xs : list float) : float :=
  match xs with
  | [] => 0%float
  | _ :: _ => py_sum w xs
  end.

(** Lines 320-383. *)
Definition handle_buy_sell_callback (user_id : Z) (data : string) : M unit :=
  let* s := get in
  match user_wallets s !! user_id with
  | None => reply user_id ConnectBeforeOperating
  | Some user_kp =>
      if PyStr.startswith "buy_" data then
        if String.eqb data "buy_custom" then
          reply user_id PromptBuyAmount ;;
          set_flag user_id "awaiting_buy_custom" true
        else
          let* a := lift (index1 (PyStr.split "_" data)) in
          let* amount := lift (float_of_str a) in
          let current_price := buy_price s user_id in
          let* result_dict := execute_buy_transaction amount user_kp in
          match result_dict with
          | TxError err => reply user_id (TxFailed err)
          | TxOk sig =>
              let pos := mkPosition amount current_price sig (time_time w)
                                    (pair_or_empty s user_id) in
              append_position user_id pos ;;
              reply user_id (PurchaseExecuted amount sig (pubkey user_kp))
          end
      else if PyStr.startswith "sell_" data then
        if String.eqb data "sell_custom" then
          reply user_id PromptSellAmount ;;
          set_flag user_id "awaiting_sell_custom" true
        else if String.eqb data "sell_all" then
          let current_pair := pair_or_empty s user_id in
          let total_amount :=
            sum_amounts (map amount
              (List.filter (matches current_pair) (positions_of s user_id))) in
          if PrimFloat.eqb total_amount 0%float then
            reply user_id NothingToSell
          else
            let* result_dict := execute_sell_transaction total_amount user_kp in
            match result_dict with
            | TxError err => reply user_id (TxFailed err)
            | TxOk sig =>
                modify (set_positions (fun m =>
                  <[user_id := List.filter (fun pos => negb (matches current_pair pos))
                                           (positions_of s user_id)]> m)) ;;
                reply user_id (SellAllExecuted total_amount sig (pubkey user_kp))
            end
        else
          let* a := lift (index1 (PyStr.split "_" data)) in
          let* amount := lift (float_of_str a) in
          let* result_dict := execute_sell_transaction amount user_kp in
          match result_dict with
          | TxError err => reply user_id (TxFailed err)
          | TxOk sig => reply user_id (SaleExecuted amount sig (pubkey user_kp))
          end
      else ret tt
  end.

(** [user_wallets[user_id]], raising [KeyError] for a missing key. *)
Definition wallet_of (user_id : Z) : M Keypair :=
  let* s := get in
  match user_wallets s !! user_id with
  | Some kp => ret kp
  | None => raise (mkExn KeyError "user_id")
  end.

(** Lines 385-455. *)
Definition message_handler (user_id : Z) (text : string) : M unit :=
  let user_text := PyStr.strip text in
  let* s := get in
  if flag s user_id "awaiting_connectwallet" then
    set_flag user_id "awaiting_connectwallet" false ;;
    try_except
      (let* new_kp := lift (keypair_from_base58 w user_text) in
       modify (set_user_wallets (fun m => <[user_id := new_kp]> m)) ;;
       reply user_id (WalletConnected (PyStr.take 7 (pubkey new_kp))))
      except_Exception
      (fun e => reply user_id (ErrorConnectingWallet (exn_msg e))) ;;
    start_command user_id
  else if flag s user_id "awaiting_setpair" then
    set_flag user_id "awaiting_setpair" false ;;
    modify (set_user_pairs (fun m => <[user_id := user_text]> m)) ;;
    reply user_id (PairSet user_text) ;;
    start_command user_id
  else if flag s user_id "awaiting_alert" then
    set_flag user_id "awaiting_alert" false ;;
    try_except
      (let* threshold := lift (float_of_str user_text) in
       modify (set_price_alerts (fun m => <[user_id := threshold]> m)) ;;
       reply user_id (AlertSet threshold))
      except_ValueError
      (fun _ => reply user_id InvalidPrice)
  else if flag s user_id "awaiting_buy_custom" then
    set_flag user_id "awaiting_buy_custom" false ;;
    try_except
      (let* amount := lift (float_of_str user_text) in
       let* s1 := get in
       let current_price := buy_price s1 user_id in
       let* user_kp := wallet_of user_id in
       let* result_dict := execute_buy_transaction amount user_kp in
       match result_dict with
       | TxError err => reply user_id (TxFailed err)
       | TxOk sig =>
           let* s2 := get in
           let pos := mkPosition amount current_price sig (time_time w)
                                 (pair_or_empty s2 user_id) in
           append_position user_id pos ;;
           let* user_kp2 := wallet_of user_id in
           reply user_id (PurchaseExecuted amount sig (pubkey user_kp2))
       end)
      except_ValueError
      (fun _ => reply user_id InvalidAmountBuy)
  else if flag s user_id "awaiting_sell_custom" then
    set_flag user_id "awaiting_sell_custom" false ;;
    try_except
      (let* amount := lift (float_of_str user_text) in
       let* user_kp := wallet_of user_id in
       let* result_dict := execute_sell_transaction amount user_kp in
       match result_dict with
       | TxError err => reply user_id (TxFailed err)
       | TxOk sig =>
           let* user_kp2 := wallet_of user_id in
           reply user_id (SaleExecuted amount sig (pubkey user_kp2))
       end)
      except_ValueError
      (fun _ => reply user_id InvalidAmountSell)
  else ret tt.

(** The body of the loop of lines 460-474 for one subscription. *)
Definition watch_one (sub : Z * float) : M unit :=
  let user_id := fst sub in
  let threshold := snd sub in
  let* s := get in
  match user_pairs s !! user_id with
  | None => ret tt
  | Some pair_id =>
      let info := get_dexscreener_info CHAIN_ID pair_id in
      match info_price info with
      | Some p =>
          if PyFloat.truthy p && PrimFloat.leb threshold p then
            reply user_id (AlertFired pair_id p threshold)
          else ret tt
      | None => ret tt
      end
  end.

(** Lines 458-474.  The subscriptions are visited in the order of
    [map_to_list], not in insertion order. *)
Definition price_watcher : M unit :=
  let* s := get in
  for_each (map_to_list (price_alerts s)) watch_one.

End Handlers.

(** ** Routing of updates (lines 485-505) *)

(** The updates the registered handlers receive: a new message carrying
    a command, a button press, a new text message that is no command, an
    edited text message or a channel post (which pass the same filter of
    line 502 but have no [update.message]), and a run of the alert job. *)
Inductive Update :=
| Command (user_id : Z) (name : string) (args : list string)
| CallbackQuery (user_id : Z) (data : string)
| TextMessage (user_id : Z) (text : string)
| EditedMessage (user_id : Z) (text : string)
| ChannelPost (text : string)
| AlertJob.

(** Line 386 for an update without [update.message]:
    [update.message.text] raises before anything is read or written. *)
Definition message_handler_without_message : M unit :=
  raise (mkExn AttributeError "'NoneType' object has no attribute 'text'").

Definition handle_update (w : World) (upd : Update) : M unit :=
  match upd with
  | Command u name args =>
      if String.eqb name "start" then start_command u
      else if String.eqb name "connectwallet" then connectwallet_command w u args
      else if String.eqb name "setpair" then setpair_command u args
      else if String.eqb name "price" then price_command w u
      else if String.eqb name "buy" then buy_command u
      else if String.eqb name "sell" then sell_command u
      else if String.eqb name "balance" then balance_command w u
      else if String.eqb name "alert" then alert_command w u args
      else if String.eqb name "positions" then positions_command w u
      else ret tt
  | CallbackQuery u data =>
      if PyStr.startswith "menu_" data then handle_main_menu_callback w u data
      else if PyStr.startswith "buy_" data || PyStr.startswith "sell_" data
      then handle_buy_sell_callback w u data
      else ret tt
  | TextMessage u text => message_handler w u text
  | EditedMessage _ _ | ChannelPost _ => message_handler_without_message
  | AlertJob => price_watcher w
  end.

(** The state after handling one update, and after a sequence of them;
    each update meets its own [World]. *)
Definition step (s : State) (wu : World * Update) : State :=
  snd (handle_update (fst wu) (snd wu) s).

Definition run (s : State) (trace : list (World * Update)) : State :=
  fold_left step trace s.

(** ** Vocabulary of the properties *)

(** What the collaborators do with a transfer of [amount] signed by [kp]:
    the instruction cannot be built ([int(amount * 1e9)] or [transfer]
    raises, outside the [try] block), or the submission raises inside the
    [try] block, or it returns a signature.  [calls] are the RPC calls
    issued. *)
Inductive Outcome :=
| NotSubmitted (e : Exn)
| Failed (e : Exn) (calls : list RpcCall)
| Succeeded (sig : string) (calls : list RpcCall).

Definition transfer_outcome (w : World) (amount : float) (kp : Keypair) : Outcome :=
  match PyFloat.to_int (PrimFloat.mul amount 1e9%float) with
  | inl e => NotSubmitted e
  | inr n =>
      match transfer w (mkTransferParams (pubkey kp) DEX_WALLET_STR n) with
      | inl e => NotSubmitted e
      | inr ins =>
          match get_latest_blockhash w with
          | inl e => Failed e [GetLatestBlockhash]
          | inr bh =>
              let tx := mkTransaction [ins] (pubkey kp) bh [kp] true in
              match send_transaction w tx with
              | inl e => Failed e [GetLatestBlockhash; SendTransaction tx]
              | inr sig => Succeeded sig [GetLatestBlockhash; SendTransaction tx]
              end
          end
      end
  end.

(** [SendTransaction] calls in a log. *)
Definition sends (l : list RpcCall) : nat :=
  length (List.filter
            (fun c => match c with SendTransaction _ => true | _ => false end) l).

(** The five keys of [context.user_data], in the order in which
    [message_handler] tests them. *)
Definition modes : list string :=
  ["awaiting_connectwallet"; "awaiting_setpair"; "awaiting_alert";
   "awaiting_buy_custom"; "awaiting_sell_custom"].

(** How many awaiting flags of user [u] are set. *)
Definition pending (s : State) (u : Z) : nat :=
  length (List.filter (flag s u) modes).

(** The flag a free-text message of user [u] is dispatched on. *)
Definition dispatched (s : State) (u : Z) : option string :=
  List.find (flag s u) modes.

(** The session of [u] is idle: no awaiting flag is set. *)
Definition idle (s : State) (u : Z) : Prop := pending s u = 0%nat.

(** A buy of [amount] by user [u] in state [s]: a preset button, or a
    free-text amount answering the "custom" prompt. *)
Inductive BuyOp (w : World) (s : State) (u : Z) (amount : float) : M unit -> Prop :=
| BuyPreset data a :
    PyStr.startswith "buy_" data = true ->
    data <> "buy_custom" ->
    index1 (PyStr.split "_" data) = inr a ->
    py_float w a = Some amount ->
    BuyOp w s u amount (handle_buy_sell_callback w u data)
| BuyCustom text :
    dispatched s u = Some "awaiting_buy_custom" ->
    py_float w (PyStr.strip text) = Some amount ->
    BuyOp w s u amount (message_handler w u text).

(** A sell of a fixed or custom amount (not "sell all"). *)
Inductive SellOp (w : World) (s : State) (u : Z) : M unit -> Prop :=
| SellPreset data :
    PyStr.startswith "sell_" data = true ->
    data <> "sell_custom" ->
    data <> "sell_all" ->
    SellOp w s u (handle_buy_sell_callback w u data)
| SellCustom text :
    dispatched s u = Some "awaiting_sell_custom" ->
    SellOp w s u (message_handler w u text).

(** The text of a failed transfer for the raised exception [e]. *)
Definition classify (side : Side) (e : Exn) : UserFriendly :=
  if PyStr.contains "insufficient funds" (PyStr.lower (exn_msg e))
  then InsufficientFunds side
  else ErrorDuring side (exn_msg e).

(** The alert [watch_one] sends for a subscription, if any. *)
Definition alert_for (w : World) (s : State) (sub : Z * float) : option (Z * Reply) :=
  match user_pairs s !! fst sub with
  | None => None
  | Some pair_id =>
      match info_price (get_dexscreener_info w CHAIN_ID pair_id) with
      | Some p =>
          if PyFloat.truthy p && PrimFloat.leb (snd sub) p
          then Some (fst sub, AlertFired pair_id p (snd sub))
          else None
      | None => None
      end
  end.

(** [m] takes every state to one related to it by [R], whether it
    returns or raises. *)
Definition respects {A} (R : State -> State -> Prop) (m : M A) : Prop :=
  forall s, R s (snd (m s)).

(** The write to [context.user_data] that handling [upd] in state [s]
    performs, if any: the user, the key and the value. *)
Definition flag_effect (upd : Update) (s : State) : option (Z * string * bool) :=
  match upd with
  | Command u name args =>
      if String.eqb name "start" then None
      else if String.eqb name "connectwallet" then
        match args with
        | [] => Some (u, "awaiting_connectwallet", true)
        | _ :: _ => None
        end
      else None
  | CallbackQuery u data =>
      if PyStr.startswith "menu_" data then
        if String.eqb data "menu_connectwallet"
        then Some (u, "awaiting_connectwallet", true)
        else if String.eqb data "menu_setpair"
        then Some (u, "awaiting_setpair", true)
        else if String.eqb data "menu_buy" then None
        else if String.eqb data "menu_sell" then None
        else if String.eqb data "menu_balance" then None
        else if String.eqb data "menu_positions" then None
        else if String.eqb data "menu_alert"
        then Some (u, "awaiting_alert", true)
        else None
      else
        match user_wallets s !! u with
        | None => None
        | Some _ =>
            if String.eqb data "buy_custom"
            then Some (u, "awaiting_buy_custom", true)
            else if String.eqb data "sell_custom"
            then Some (u, "awaiting_sell_custom", true)
            else None
        end
  | TextMessage u _ =>
      match dispatched s u with
      | Some k => Some (u, k, false)
      | None => None
      end
  | EditedMessage _ _ | ChannelPost _ | AlertJob => None
  end.

(** The dictionaries of flags after a write. *)
Definition apply_effect (eff : option (Z * string * bool))
    (ud : gmap Z (gmap string bool)) : gmap Z (gmap string bool) :=
  match eff with
  | Some (u, k, b) => write_flag u k b ud
  | None => ud
  end.

(** Relations between the state before and after a handler. *)
Definition same_flags (s s' : State) : Prop := user_data s' = user_data s.
Definition same_ledger (s s' : State) : Prop := positions s' = positions s.
Definition wallets_kept (s s' : State) : Prop :=
  forall u, is_Some (user_wallets s !! u) -> is_Some (user_wallets s' !! u).

(** Whoever is being asked for a custom buy or sell amount has a wallet. *)
Definition custom_prompt_has_wallet (s : State) : Prop :=
  forall u,
    flag s u "awaiting_buy_custom" = true \/ flag s u "awaiting_sell_custom" = true ->
    is_Some (user_wallets s !! u).

(** The states the bot can be in: those reached from the empty
    dictionaries by handling updates. *)
Definition reachable (s : State) : Prop :=
  exists trace, s = run initial_state trace.

(** The error message a free-text reply gets when its text does not
    parse for the flag [k] it is dispatched on: an undecodable key, or a
    text [float] rejects.  The pair prompt accepts any text. *)
Definition parse_failure (w : World) (k : string) (user_text : string) : option Reply :=
  if String.eqb k "awaiting_connectwallet" then
    match keypair_from_base58 w user_text with
    | inl e => Some (ErrorConnectingWallet (exn_msg e))
    | inr _ => None
    end
  else if String.eqb k "awaiting_alert" then
    match py_float w user_text with None => Some InvalidPrice | Some _ => None end
  else if String.eqb k "awaiting_buy_custom" then
    match py_float w user_text with None => Some InvalidAmountBuy | Some _ => None end
  else if String.eqb k "awaiting_sell_custom" then
    match py_float w user_text with None => Some InvalidAmountSell | Some _ => None end
  else None.

(** The menu line of [start_command]. *)
Definition wallet_status (s : State) (u : Z) : option string :=
  match user_wallets s !! u with
  | Some kp => Some (PyStr.take 7 (pubkey kp))
  | None => None
  end.

(** ** Sample collaborators *)

Module Sample.

Definition alice : Keypair := mkKeypair "alice-secret" "A1icePubkey4444".

Definition parse (t : string) : option float :=
  if String.eqb t "0.5" then Some 0.5%float
  else if String.eqb t "0" then Some 0%float
  else if String.eqb t "1" then Some 1%float
  else if String.eqb t "2" then Some 2%float
  else if String.eqb t "3" then Some 3%float
  else if String.eqb t "9" then Some 9%float
  else if String.eqb t "10" then Some 10%float
  else if String.eqb t "11" then Some 11%float
  else None.

Definition decode (k : string) : Exn + Keypair :=
  if String.eqb k "alice-key" then inr alice
  else inl (mkExn ValueError "Invalid character").

Definition u64_transfer (p : TransferParams) : Exn + TransferParams :=
  if (0 <=? lamports p)%Z && (lamports p <? 2 ^ 64)%Z then inr p
  else inl (mkExn OverflowError "out of range integral type conversion attempted").

(** A world in which a submission answers [send] and the oracle answers
    [resp]. *)
Definition world (send : Exn + string) (resp : Exn + Json) : World :=
  mkWorld parse PyFloat.sum decode u64_transfer (inr "blockhash-1") (fun _ => send)
          (fun _ => inr 2000000000%Z) (fun _ => resp) 1700000000%float.

(** The same world on an interpreter whose [sum] compensates. *)
Definition world_312 (send : Exn + string) (resp : Exn + Json) : World :=
  mkWorld parse PyFloat.sum_compensated decode u64_transfer (inr "blockhash-1")
          (fun _ => send) (fun _ => inr 2000000000%Z) (fun _ => resp)
          1700000000%float.

Definition sent : Exn + string := inr "sig-1".
Definition broke : Exn + string :=
  inl (mkExn RPCException "Transaction failed: Insufficient funds for fee").

(** An oracle answer quoting [price_usd] for the pair. *)
Definition quote (price_usd : string) : Exn + Json :=
  inr (JObj [("pairs", JArr [JObj [("priceUsd", JStr price_usd);
                                    ("icon", JStr "https://icons/x.png")]])]).
(** A pair entry without a price. *)
Definition quote_without_price : Exn + Json :=
  inr (JObj [("pairs", JArr [JObj [("icon", JStr "https://icons/x.png")]])]).
(** An unknown pair. *)
Definition no_pairs : Exn + Json := inr (JObj [("pairs", JNull)]).

(** User 1 after connecting a wallet and selecting pair "X". *)
Definition connected : State :=
  run initial_state
    [(world sent (quote "2"), Command 1 "connectwallet" ["alice-key"]);
     (world sent (quote "2"), Command 1 "setpair" ["X"])].

(** The same user holding 3 of pair "X" and 2 of pair "Y". *)
Definition holding : State :=
  set_positions
    (fun m => <[1%Z := [mkPosition 3%float (Some 2%float) "sig-a" 1700000000%float "X";
                        mkPosition 2%float (Some 5%float) "sig-b" 1700000001%float "Y"]]> m)
    connected.

(** The same user with an alert at 10 on pair "X". *)
Definition subscribed : State :=
  set_price_alerts (fun m => <[1%Z := 10%float]> m) connected.

(** An alert scan during which the oracle quotes [price_usd]. *)
Definition scan (price_usd : string) : World * Update :=
  (world sent (quote price_usd), AlertJob).

End Sample.

(** ** Vocabulary of the further properties *)

(** The user an update comes from; a channel post and the alert job
    have none. *)
Definition acting_user (upd : Update) : option Z :=
  match upd with
  | Command u _ _ | CallbackQuery u _ | TextMessage u _ | EditedMessage u _ =>
      Some u
  | ChannelPost _ | AlertJob => None
  end.

(** Nothing but the two logs differs. *)
Definition same_dicts (s s' : State) : Prop :=
  user_pairs s' = user_pairs s
  /\ price_alerts s' = price_alerts s
  /\ user_wallets s' = user_wallets s
  /\ positions s' = positions s
  /\ user_data s' = user_data s.

(** The entries of every user but [u] are as they were. *)
Definition others_kept (u : Z) (s s' : State) : Prop :=
  forall u', u' <> u ->
    user_pairs s' !! u' = user_pairs s !! u'
    /\ price_alerts s' !! u' = price_alerts s !! u'
    /\ user_wallets s' !! u' = user_wallets s !! u'
    /\ positions s' !! u' = positions s !! u'
    /\ user_data s' !! u' = user_data s !! u'.

Definition same_rpc (s s' : State) : Prop := rpc_log s' = rpc_log s.

(** The URL [get_dexscreener_info] requests. *)
Definition pair_url (chain_id pair_id : string) : string :=
  "https://api.dexscreener.com/latest/dex/pairs/" +:+ chain_id +:+ "/" +:+ pair_id.

(** The amounts "sell all" adds up, and the amount it offers: the sum
    of line 363. *)
Definition sell_all_amounts (s : State) (u : Z) : list float :=
  map amount (List.filter (matches (pair_or_empty s u)) (positions_of s u)).

Definition sell_all_total (w : World) (s : State) (u : Z) : float :=
  sum_amounts w (sell_all_amounts s u).

(** A world whose [float] also reads "nan" and "inf", as Python's does. *)
Definition world_with_specials (send : Exn + string) (resp : Exn + Json) : World :=
  mkWorld
    (fun t => if String.eqb t "nan" then Some PrimFloat.nan
              else if String.eqb t "inf" then Some PrimFloat.infinity
              else Sample.parse t)
    PyFloat.sum Sample.decode Sample.u64_transfer (inr "blockhash-1") (fun _ => send)
    (fun _ => inr 2000000000%Z) (fun _ => resp) 1700000000%float.


(** Ten positions of a tenth each in pair "X", for user 1. *)
Definition tenth : float := PrimFloat.div 1%float 10%float.

Definition ten_tenths : State :=
  set_positions
    (fun m => <[1%Z := repeat (mkPosition tenth (Some 2%float) "sig-t"
                                          1700000000%float "X") 10]> m)
    Sample.connected.

(** * Properties *)

(** ** Strings *)

Lemma startswith_spec (p s : string) :
  PyStr.startswith p s = true <-> exists suf, s = p +:+ suf.
Proof.
  revert s. induction p as [|a p IH]; intros s; simpl.
  - split; [intros _; by exists s | done].
  - destruct s as [|b s].
    + split; [done | intros [suf H]; discriminate H].
    + destruct (Ascii.eqb_spec a b) as [->|Hne].
      * rewrite IH. split; intros [suf H]; exists suf.
        -- by rewrite H.
        -- by injection H.
      * split; [done | intros [suf H]; injection H; congruence].
Qed.

Lemma contains_spec (needle hay : string) :
  PyStr.contains needle hay = true <->
  exists pre suf, hay = pre +:+ needle +:+ suf.
Proof.
  induction hay as [|c hay IH]; simpl.
  - rewrite startswith_spec. split.
    + intros [suf H]. by exists "", suf.
    + intros (pre & suf & H). destruct pre; [by exists suf | discriminate H].
  - rewrite orb_true_iff, IH, startswith_spec. split.
    + intros [[suf H] | (pre & suf & H)].
      * by exists "", suf.
      * exists (String c pre), suf. simpl. by rewrite H.
    + intros (pre & suf & H). destruct pre as [|c' pre]; simpl in H.
      * left. by exists suf.
      * right. exists pre, suf. by injection H.
Qed.

(** ** Running handlers *)

Ltac run_m :=
  cbv beta iota zeta delta
    [bind ret raise lift get modify try_except reply log_rpc set_flag
     except_Exception fst snd].

(** ** Transfer submission *)

(** [execute_buy_transaction] and [execute_sell_transaction] answer
    according to the outcome, log its calls and change nothing else. *)
Lemma execute_transaction_outcome w side amount kp s :
  execute_transaction w side amount kp s =
  match transfer_outcome w amount kp with
  | NotSubmitted e => (inl e, s)
  | Failed e calls =>
      (inr (TxError (classify side e)), set_rpc_log (fun l => l ++ calls) s)
  | Succeeded sig calls =>
      (inr (TxOk sig), set_rpc_log (fun l => l ++ calls) s)
  end.
Proof.
  unfold execute_transaction, transfer_outcome, classify.
  destruct (PyFloat.to_int _) as [?|n]; [done|]. run_m.
  destruct (transfer w _) as [?|ins]; [done|].
  destruct (get_latest_blockhash w) as [?|bh]; [done|].
  destruct (send_transaction w _) as [?|sig];
    unfold set_rpc_log; simpl; by rewrite <- app_assoc.
Qed.

Lemma classify_insufficient side e :
  classify side e = InsufficientFunds side <->
  exists pre suf, PyStr.lower (exn_msg e) = pre +:+ "insufficient funds" +:+ suf.
Proof.
  rewrite <- contains_spec. unfold classify.
  destruct (PyStr.contains _ _); split; done.
Qed.

Lemma classify_other side e :
  classify side e <> InsufficientFunds side ->
  classify side e = ErrorDuring side (exn_msg e).
Proof. unfold classify. by destruct (PyStr.contains _ _). Qed.

Lemma failed_sends w amount kp e calls :
  transfer_outcome w amount kp = Failed e calls -> (sends calls <= 1)%nat.
Proof.
  unfold transfer_outcome. intros H.
  repeat match type of H with
         | match ?x with _ => _ end = _ => destruct x
         end; try discriminate H; injection H as _ <-; unfold sends; simpl; lia.
Qed.

(** C8: when the submission of a transfer raises, [execute_buy_transaction]
    and [execute_sell_transaction] return status "error" whose text is the
    insufficient-funds one exactly when the lower-cased message of the
    exception contains "insufficient funds", and otherwise the generic
    one carrying the raw message; the call returns after at most one
    [send_transaction], there is no retry. *)
Theorem transfer_failure_classified w side amount kp e calls s :
  transfer_outcome w amount kp = Failed e calls ->
  exists uf,
    execute_transaction w side amount kp s
      = (inr (TxError uf), set_rpc_log (fun l => l ++ calls) s)
    /\ (uf = InsufficientFunds side <->
        exists pre suf,
          PyStr.lower (exn_msg e) = pre +:+ "insufficient funds" +:+ suf)
    /\ (uf <> InsufficientFunds side -> uf = ErrorDuring side (exn_msg e))
    /\ (sends calls <= 1)%nat.
Proof.
  intros H. exists (classify side e).
  rewrite execute_transaction_outcome, H.
  split; [done|]. split; [apply classify_insufficient|].
  split; [apply classify_other | by eapply failed_sends].
Qed.

Lemma transfer_failure_classified_witness :
  exists uf,
    execute_buy_transaction (Sample.world Sample.broke Sample.no_pairs)
      0.5%float Sample.alice initial_state
      = (inr (TxError uf),
         set_rpc_log
           (fun l => l ++ [GetLatestBlockhash;
                           SendTransaction
                             (mkTransaction
                                [mkTransferParams "A1icePubkey4444" DEX_WALLET_STR
                                                  500000000]
                                "A1icePubkey4444" "blockhash-1" [Sample.alice] true)])
           initial_state)
    /\ uf = InsufficientFunds Purchase.
Proof.
  destruct (transfer_failure_classified
              (Sample.world Sample.broke Sample.no_pairs) Purchase 0.5%float
              Sample.alice
              (mkExn RPCException "Transaction failed: Insufficient funds for fee")
              [GetLatestBlockhash;
               SendTransaction
                 (mkTransaction
                    [mkTransferParams "A1icePubkey4444" DEX_WALLET_STR 500000000]
                    "A1icePubkey4444" "blockhash-1" [Sample.alice] true)]
              initial_state) as (uf & Hrun & Hiff & _).
  - vm_compute. reflexivity.
  - exists uf. split; [exact Hrun|].
    apply Hiff. exists "transaction failed: ", " for fee". reflexivity.
Defined.

(** ** Frame reasoning over the handler monad *)

Section Respects.

Context (R : State -> State -> Prop) `{!PreOrder R}.

Lemma respects_ret {A} (a : A) : respects R (ret a).
Proof. intros s. simpl. reflexivity. Qed.

Lemma respects_raise {A} (e : Exn) : respects R (@raise A e).
Proof. intros s. simpl. reflexivity. Qed.

Lemma respects_lift {A} (r : Exn + A) : respects R (lift r).
Proof. intros s. simpl. reflexivity. Qed.

Lemma respects_get : respects R get.
Proof. intros s. simpl. reflexivity. Qed.

Lemma respects_modify (f : State -> State) :
  (forall s, R s (f s)) -> respects R (modify f).
Proof. intros H s. apply H. Qed.

Lemma respects_bind {A B} (m : M A) (k : A -> M B) :
  respects R m -> (forall a, respects R (k a)) -> respects R (bind m k).
Proof.
  intros Hm Hk s. unfold bind. specialize (Hm s).
  destruct (m s) as [[e|a] s1]; simpl in *; [done|].
  etrans; [exact Hm | apply Hk].
Qed.

Lemma respects_try {A} (m : M A) (c : Exn -> bool) (h : Exn -> M A) :
  respects R m -> (forall e, respects R (h e)) -> respects R (try_except m c h).
Proof.
  intros Hm Hh s. unfold try_except. specialize (Hm s).
  destruct (m s) as [[e|a] s1]; simpl in *; [|done].
  destruct (c e); simpl; [|done].
  etrans; [exact Hm | apply Hh].
Qed.

Lemma respects_for_each {A} (xs : list A) (body : A -> M unit) :
  (forall x, respects R (body x)) -> respects R (for_each xs body).
Proof.
  intros Hb. induction xs as [|x xs IH]; simpl.
  - apply respects_ret.
  - apply respects_bind; [apply Hb | intros _; exact IH].
Qed.

End Respects.

Ltac unfold_handlers :=
  unfold start_command, setpair_command, price_command, balance_command,
    positions_command, alert_command, buy_command, sell_command,
    connectwallet_command, handle_main_menu_callback, price_watcher, watch_one,
    get_balance_solana, execute_buy_transaction, execute_sell_transaction,
    execute_transaction, append_position, wallet_of, reply, log_rpc, set_flag,
    handle_buy_sell_callback, message_handler,
    message_handler_without_message.

Ltac respects_step leaf :=
  cbv beta zeta;
  lazymatch goal with
  | |- respects _ (bind _ _) => apply respects_bind; [apply _ | | intros ?]
  | |- respects _ (try_except _ _ _) => apply respects_try; [apply _ | | intros ?]
  | |- respects _ (ret _) => apply respects_ret; apply _
  | |- respects _ (raise _) => apply respects_raise; apply _
  | |- respects _ (lift _) => apply respects_lift; apply _
  | |- respects _ get => apply respects_get; apply _
  | |- respects _ (for_each _ _) => apply respects_for_each; [apply _ | intros ?]
  | |- respects _ (modify _) => apply respects_modify; intros ?; leaf
  | |- respects _ (match ?x with _ => _ end) => destruct x
  | |- respects _ _ => progress unfold_handlers
  end.

Ltac respects_auto leaf := repeat respects_step leaf.

Global Instance same_flags_preorder : PreOrder same_flags.
Proof. split; unfold same_flags; [done | intros x y z; congruence]. Qed.

Global Instance same_ledger_preorder : PreOrder same_ledger.
Proof. split; unfold same_ledger; [done | intros x y z; congruence]. Qed.

Global Instance wallets_kept_preorder : PreOrder wallets_kept.
Proof.
  split; unfold wallets_kept.
  - by intros x u H.
  - intros x y z Hxy Hyz u H. by apply Hyz, Hxy.
Qed.

(** ** The awaiting flags *)

Lemma flag_write s u k b u' k' :
  flag (set_user_data (write_flag u k b) s) u' k'
  = if decide (u = u' /\ k = k') then b else flag s u' k'.
Proof.
  unfold flag, write_flag. simpl.
  destruct (decide (u = u')) as [->|Hu].
  - rewrite lookup_insert_eq.
    destruct (decide (k = k')) as [->|Hk].
    + rewrite lookup_insert_eq. simpl. by rewrite decide_True.
    + rewrite lookup_insert_ne by done. rewrite decide_False by tauto.
      by destruct (user_data s !! u').
  - rewrite lookup_insert_ne by done. by rewrite decide_False by tauto.
Qed.

Lemma bind_get {A} (k : State -> M A) s : bind get k s = k s s.
Proof. reflexivity. Qed.

Ltac flags_leaf := reflexivity.

Lemma start_command_flags u : respects same_flags (start_command u).
Proof. respects_auto flags_leaf. Qed.

Lemma execute_transaction_flags w side a kp :
  respects same_flags (execute_transaction w side a kp).
Proof. respects_auto flags_leaf. Qed.

Lemma setpair_command_flags u args : respects same_flags (setpair_command u args).
Proof. respects_auto flags_leaf. Qed.

Lemma price_command_flags w u : respects same_flags (price_command w u).
Proof. respects_auto flags_leaf. Qed.

Lemma balance_command_flags w u : respects same_flags (balance_command w u).
Proof. respects_auto flags_leaf. Qed.

Lemma positions_command_flags w u : respects same_flags (positions_command w u).
Proof. respects_auto flags_leaf. Qed.

Lemma alert_command_flags w u args : respects same_flags (alert_command w u args).
Proof. respects_auto flags_leaf. Qed.

Lemma buy_command_flags u : respects same_flags (buy_command u).
Proof. respects_auto flags_leaf. Qed.

Lemma sell_command_flags u : respects same_flags (sell_command u).
Proof. respects_auto flags_leaf. Qed.

Lemma price_watcher_flags w : respects same_flags (price_watcher w).
Proof. respects_auto flags_leaf. Qed.

(** After a first action, a continuation that leaves the flags alone. *)
Lemma flags_after {A B} (m : M A) (k : A -> M B) s :
  (forall a, respects same_flags (k a)) ->
  user_data (snd (bind m k s)) = user_data (snd (m s)).
Proof.
  intros Hk. unfold bind. destruct (m s) as [[e|a] s1]; [done | apply Hk].
Qed.

Lemma message_handler_flags w u text s :
  user_data (snd (message_handler w u text s))
  = apply_effect (flag_effect (TextMessage u text) s) (user_data s).
Proof.
  unfold message_handler, flag_effect, dispatched, modes. cbv zeta.
  rewrite bind_get. simpl List.find.
  repeat match goal with
         | |- context [if flag s u ?k then _ else _] =>
             destruct (flag s u k) eqn:?
         end;
    try (rewrite flags_after; [reflexivity | intros; respects_auto flags_leaf]).
  reflexivity.
Qed.

Ltac by_frame R leaf :=
  lazymatch goal with
  | |- _ (snd (?m ?s)) = _ =>
      let Hr := fresh in
      enough (Hr : respects R m) by apply Hr;
      respects_auto leaf
  end.

Lemma connectwallet_command_flags w u args s :
  user_data (snd (connectwallet_command w u args s))
  = apply_effect (match args with
                  | [] => Some (u, "awaiting_connectwallet", true)
                  | _ :: _ => None
                  end) (user_data s).
Proof.
  destruct args as [|pk args]; [reflexivity|]. simpl apply_effect.
  by_frame same_flags flags_leaf.
Qed.

Lemma handle_buy_sell_callback_flags w u data s :
  user_data (snd (handle_buy_sell_callback w u data s))
  = apply_effect
      (match user_wallets s !! u with
       | None => None
       | Some _ =>
           if String.eqb data "buy_custom"
           then Some (u, "awaiting_buy_custom", true)
           else if String.eqb data "sell_custom"
           then Some (u, "awaiting_sell_custom", true)
           else None
       end) (user_data s).
Proof.
  unfold handle_buy_sell_callback. rewrite bind_get.
  destruct (user_wallets s !! u) as [kp|]; [|reflexivity].
  destruct (String.eqb_spec data "buy_custom") as [->|Hb]; [reflexivity|].
  destruct (String.eqb_spec data "sell_custom") as [->|Hs]; [reflexivity|].
  simpl apply_effect.
  destruct (PyStr.startswith "buy_" data).
  - by_frame same_flags flags_leaf.
  - destruct (PyStr.startswith "sell_" data); [|reflexivity].
    destruct (String.eqb data "sell_all"); by_frame same_flags flags_leaf.
Qed.

Lemma handle_main_menu_callback_flags w u data s :
  user_data (snd (handle_main_menu_callback w u data s))
  = apply_effect
      (if String.eqb data "menu_connectwallet"
       then Some (u, "awaiting_connectwallet", true)
       else if String.eqb data "menu_setpair"
       then Some (u, "awaiting_setpair", true)
       else if String.eqb data "menu_buy" then None
       else if String.eqb data "menu_sell" then None
       else if String.eqb data "menu_balance" then None
       else if String.eqb data "menu_positions" then None
       else if String.eqb data "menu_alert"
       then Some (u, "awaiting_alert", true)
       else None) (user_data s).
Proof.
  unfold handle_main_menu_callback.
  repeat match goal with
         | |- context [if String.eqb data ?k then _ else _] =>
             destruct (String.eqb data k)
         end;
    first [reflexivity | simpl apply_effect; by_frame same_flags flags_leaf].
Qed.

(** Handling an update writes at most one flag: the one [flag_effect]
    names. *)
Lemma step_flags w upd s :
  user_data (step s (w, upd))
  = apply_effect (flag_effect upd s) (user_data s).
Proof.
  unfold step. simpl fst. simpl snd.
  destruct upd as [u name args | u data | u text | u text | text |];
    [| | | reflexivity | reflexivity |].
  - unfold handle_update, flag_effect.
    destruct (String.eqb name "start");
      [simpl apply_effect; by_frame same_flags flags_leaf|].
    destruct (String.eqb name "connectwallet");
      [apply connectwallet_command_flags|].
    simpl apply_effect.
    repeat match goal with
           | |- context [if String.eqb name ?k then _ else _] =>
               destruct (String.eqb name k)
           end; by_frame same_flags flags_leaf.
  - unfold handle_update, flag_effect.
    destruct (PyStr.startswith "menu_" data);
      [apply handle_main_menu_callback_flags|].
    destruct (PyStr.startswith "buy_" data || PyStr.startswith "sell_" data)
      eqn:Hp; [apply handle_buy_sell_callback_flags|].
    destruct (user_wallets s !! u); [|reflexivity].
    destruct (String.eqb_spec data "buy_custom") as [->|_]; [discriminate Hp|].
    destruct (String.eqb_spec data "sell_custom") as [->|_]; [discriminate Hp|].
    reflexivity.
  - apply message_handler_flags.
  - simpl apply_effect. unfold handle_update.
    by_frame same_flags flags_leaf.
Qed.

(** ** Wallet bindings are never removed *)

Ltac wallets_leaf :=
  first
    [ by intros ? ?
    | let u := fresh "u" in
      let H := fresh "H" in
      intros u H; simpl; rewrite lookup_insert; case_decide; [eauto | exact H] ].

Lemma step_wallets w upd s : wallets_kept s (step s (w, upd)).
Proof.
  unfold step. simpl fst. simpl snd.
  enough (Hr : respects wallets_kept (handle_update w upd)) by apply Hr.
  unfold handle_update. destruct upd; respects_auto wallets_leaf.
Qed.

(** ** Custom prompts imply a wallet *)

Lemma flag_ext s1 s2 u k :
  user_data s1 = user_data s2 -> flag s1 u k = flag s2 u k.
Proof. unfold flag. by intros ->. Qed.

Lemma flag_step w upd s u k :
  flag (step s (w, upd)) u k
  = match flag_effect upd s with
    | Some (u', k', b) => if decide (u' = u /\ k' = k) then b else flag s u k
    | None => flag s u k
    end.
Proof.
  rewrite (flag_ext _ (set_user_data (apply_effect (flag_effect upd s)) s))
    by apply step_flags.
  destruct (flag_effect upd s) as [[[u' k'] b]|]; [apply flag_write | done].
Qed.

Lemma custom_flag_needs_wallet upd s u k :
  flag_effect upd s = Some (u, k, true) ->
  k = "awaiting_buy_custom" \/ k = "awaiting_sell_custom" ->
  is_Some (user_wallets s !! u).
Proof.
  intros He Hk.
  destruct upd as [u0 name args | u0 data | u0 text | u0 text | text |];
    simpl in He; [| | | discriminate He | discriminate He |].
  - repeat match type of He with
           | (if ?c then _ else _) = _ => destruct c
           | match ?c with _ => _ end = _ => destruct c
           end; try discriminate He.
    injection He as -> <-. destruct Hk as [Hk | Hk]; discriminate Hk.
  - repeat match type of He with
           | match ?c with _ => _ end = _ => destruct c eqn:?
           end; try discriminate He; injection He as -> <-;
      try (destruct Hk as [Hk | Hk]; discriminate Hk);
      eapply mk_is_Some; eassumption.
  - repeat match type of He with
           | (if ?c then _ else _) = _ => destruct c
           | match ?c with _ => _ end = _ => destruct c
           end; discriminate He.
  - discriminate He.
Qed.

Lemma step_custom_prompt w upd s :
  custom_prompt_has_wallet s -> custom_prompt_has_wallet (step s (w, upd)).
Proof.
  intros Hinv u Hflag.
  assert (Hcase : exists k,
             (k = "awaiting_buy_custom" \/ k = "awaiting_sell_custom")
             /\ flag (step s (w, upd)) u k = true)
    by (destruct Hflag; eauto).
  destruct Hcase as (k & Hk & Hset). rewrite flag_step in Hset.
  destruct (flag_effect upd s) as [[[u' k'] b]|] eqn:He.
  - case_decide as Hd.
    + destruct Hd as [-> ->]. subst b.
      apply (step_wallets w upd s), (custom_flag_needs_wallet upd s u k He Hk).
    + apply (step_wallets w upd s), Hinv. destruct Hk as [-> | ->]; eauto.
  - apply (step_wallets w upd s), Hinv. destruct Hk as [-> | ->]; eauto.
Qed.

Lemma run_custom_prompt trace s :
  custom_prompt_has_wallet s -> custom_prompt_has_wallet (run s trace).
Proof.
  revert s. induction trace as [|[w upd] trace IH]; intros s Hs; [done|].
  simpl. apply IH, step_custom_prompt, Hs.
Qed.

Lemma reachable_custom_prompt s :
  reachable s -> custom_prompt_has_wallet s.
Proof.
  intros [trace ->]. apply run_custom_prompt. intros u [H | H]; discriminate H.
Qed.

(** ** What a free-text reply does, branch by branch *)

Ltac dispatch_on Hd :=
  unfold dispatched, modes in Hd; simpl in Hd;
  repeat match type of Hd with
         | (if flag ?s ?u ?k0 then _ else _) = _ =>
             let E := fresh "Hflag" in destruct (flag s u k0) eqn:E
         end; try discriminate Hd;
  unfold message_handler; cbv zeta; rewrite bind_get;
  repeat match goal with
         | E : flag _ _ _ = _ |- _ => rewrite E
         end.

Ltac state_simpl :=
  cbn [user_pairs price_alerts user_wallets positions user_data outbox rpc_log
       set_user_pairs set_price_alerts set_user_wallets set_positions
       set_user_data set_outbox set_rpc_log].

Lemma message_handler_connect w u text s :
  dispatched s u = Some "awaiting_connectwallet" ->
  message_handler w u text s =
  let s1 := set_user_data (write_flag u "awaiting_connectwallet" false) s in
  match keypair_from_base58 w (PyStr.strip text) with
  | inl e =>
      (inr tt,
       set_outbox (fun o => o ++ [(u, ErrorConnectingWallet (exn_msg e));
                                   (u, MainMenu (wallet_status s u))]) s1)
  | inr kp =>
      (inr tt,
       set_outbox (fun o => o ++ [(u, WalletConnected (PyStr.take 7 (pubkey kp)));
                                   (u, MainMenu (Some (PyStr.take 7 (pubkey kp))))])
         (set_user_wallets (fun m => <[u := kp]> m) s1))
  end.
Proof.
  intros Hd. dispatch_on Hd. unfold start_command, wallet_status. run_m.
  destruct (keypair_from_base58 w _) as [e|kp]; state_simpl.
  - unfold set_outbox. state_simpl. by rewrite <- app_assoc.
  - rewrite lookup_insert_eq.
    unfold set_outbox. state_simpl. by rewrite <- app_assoc.
Qed.

Lemma message_handler_setpair w u text s :
  dispatched s u = Some "awaiting_setpair" ->
  message_handler w u text s =
  (inr tt,
   set_outbox (fun o => o ++ [(u, PairSet (PyStr.strip text));
                               (u, MainMenu (wallet_status s u))])
     (set_user_pairs (fun m => <[u := PyStr.strip text]> m)
        (set_user_data (write_flag u "awaiting_setpair" false) s))).
Proof.
  intros Hd. dispatch_on Hd. unfold start_command, wallet_status. run_m.
  state_simpl. unfold set_outbox. state_simpl. by rewrite <- app_assoc.
Qed.

Lemma message_handler_alert w u text s :
  dispatched s u = Some "awaiting_alert" ->
  message_handler w u text s =
  let s1 := set_user_data (write_flag u "awaiting_alert" false) s in
  match py_float w (PyStr.strip text) with
  | None => (inr tt, set_outbox (fun o => o ++ [(u, InvalidPrice)]) s1)
  | Some threshold =>
      (inr tt,
       set_outbox (fun o => o ++ [(u, AlertSet threshold)])
         (set_price_alerts (fun m => <[u := threshold]> m) s1))
  end.
Proof.
  intros Hd. dispatch_on Hd. unfold float_of_str. run_m.
  by destruct (py_float w _).
Qed.

Lemma message_handler_buy w u text s kp :
  dispatched s u = Some "awaiting_buy_custom" ->
  user_wallets s !! u = Some kp ->
  message_handler w u text s =
  let s1 := set_user_data (write_flag u "awaiting_buy_custom" false) s in
  match py_float w (PyStr.strip text) with
  | None => (inr tt, set_outbox (fun o => o ++ [(u, InvalidAmountBuy)]) s1)
  | Some amount =>
      match transfer_outcome w amount kp with
      | NotSubmitted e =>
          if except_ValueError e
          then (inr tt, set_outbox (fun o => o ++ [(u, InvalidAmountBuy)]) s1)
          else (inl e, s1)
      | Failed e calls =>
          (inr tt,
           set_outbox (fun o => o ++ [(u, TxFailed (classify Purchase e))])
             (set_rpc_log (fun l => l ++ calls) s1))
      | Succeeded sig calls =>
          (inr tt,
           set_outbox (fun o => o ++ [(u, PurchaseExecuted amount sig (pubkey kp))])
             (set_positions
                (fun m => <[u := positions_of s u
                                   ++ [mkPosition amount (buy_price w s u) sig
                                         (time_time w) (pair_or_empty s u)]]> m)
                (set_rpc_log (fun l => l ++ calls) s1)))
      end
  end.
Proof.
  intros Hd Hw. dispatch_on Hd. unfold float_of_str, wallet_of, append_position.
  run_m. destruct (py_float w _) as [amount|]; [|done].
  state_simpl. rewrite Hw. unfold execute_buy_transaction.
  rewrite execute_transaction_outcome.
  destruct (transfer_outcome w amount kp) as [e|e calls|sig calls]; [done..|].
  state_simpl. by rewrite Hw.
Qed.

Lemma message_handler_sell w u text s kp :
  dispatched s u = Some "awaiting_sell_custom" ->
  user_wallets s !! u = Some kp ->
  message_handler w u text s =
  let s1 := set_user_data (write_flag u "awaiting_sell_custom" false) s in
  match py_float w (PyStr.strip text) with
  | None => (inr tt, set_outbox (fun o => o ++ [(u, InvalidAmountSell)]) s1)
  | Some amount =>
      match transfer_outcome w amount kp with
      | NotSubmitted e =>
          if except_ValueError e
          then (inr tt, set_outbox (fun o => o ++ [(u, InvalidAmountSell)]) s1)
          else (inl e, s1)
      | Failed e calls =>
          (inr tt,
           set_outbox (fun o => o ++ [(u, TxFailed (classify Sale e))])
             (set_rpc_log (fun l => l ++ calls) s1))
      | Succeeded sig calls =>
          (inr tt,
           set_outbox (fun o => o ++ [(u, SaleExecuted amount sig (pubkey kp))])
             (set_rpc_log (fun l => l ++ calls) s1))
      end
  end.
Proof.
  intros Hd Hw. dispatch_on Hd. unfold float_of_str, wallet_of.
  run_m. destruct (py_float w _) as [amount|]; [|done].
  state_simpl. rewrite Hw. unfold execute_sell_transaction.
  rewrite execute_transaction_outcome.
  destruct (transfer_outcome w amount kp) as [e|e calls|sig calls]; [done..|].
  state_simpl. by rewrite Hw.
Qed.

Lemma message_handler_idle w u text s :
  dispatched s u = None -> message_handler w u text s = (inr tt, s).
Proof. intros Hd. dispatch_on Hd. done. Qed.

(** ** What a buy or sell button does *)

Lemma sell_is_not_buy data :
  PyStr.startswith "sell_" data = true -> PyStr.startswith "buy_" data = false.
Proof.
  destruct data as [|c data]; [done|].
  destruct c as [[] [] [] [] [] [] [] []]; simpl; done.
Qed.

Lemma callback_buy w u data a amount s kp :
  PyStr.startswith "buy_" data = true ->
  data <> "buy_custom" ->
  index1 (PyStr.split "_" data) = inr a ->
  py_float w a = Some amount ->
  user_wallets s !! u = Some kp ->
  handle_buy_sell_callback w u data s =
  match transfer_outcome w amount kp with
  | NotSubmitted e => (inl e, s)
  | Failed e calls =>
      (inr tt,
       set_outbox (fun o => o ++ [(u, TxFailed (classify Purchase e))])
         (set_rpc_log (fun l => l ++ calls) s))
  | Succeeded sig calls =>
      (inr tt,
       set_outbox (fun o => o ++ [(u, PurchaseExecuted amount sig (pubkey kp))])
         (set_positions
            (fun m => <[u := positions_of s u
                               ++ [mkPosition amount (buy_price w s u) sig
                                     (time_time w) (pair_or_empty s u)]]> m)
            (set_rpc_log (fun l => l ++ calls) s)))
  end.
Proof.
  intros Hb Hc Hi Hp Hw. unfold handle_buy_sell_callback.
  rewrite bind_get, Hw, Hb. apply String.eqb_neq in Hc. rewrite Hc, Hi.
  unfold append_position. run_m. unfold float_of_str. rewrite Hp. run_m.
  unfold execute_buy_transaction. rewrite execute_transaction_outcome.
  by destruct (transfer_outcome w amount kp).
Qed.

Lemma callback_sell_all w u s kp :
  user_wallets s !! u = Some kp ->
  handle_buy_sell_callback w u "sell_all" s =
  let current_pair := pair_or_empty s u in
  let total_amount := sell_all_total w s u in
  if PrimFloat.eqb total_amount 0%float then
    (inr tt, set_outbox (fun o => o ++ [(u, NothingToSell)]) s)
  else
    match transfer_outcome w total_amount kp with
    | NotSubmitted e => (inl e, s)
    | Failed e calls =>
        (inr tt,
         set_outbox (fun o => o ++ [(u, TxFailed (classify Sale e))])
           (set_rpc_log (fun l => l ++ calls) s))
    | Succeeded sig calls =>
        (inr tt,
         set_outbox
           (fun o => o ++ [(u, SellAllExecuted total_amount sig (pubkey kp))])
           (set_positions
              (fun m => <[u := List.filter
                                 (fun pos => negb (matches current_pair pos))
                                 (positions_of s u)]> m)
              (set_rpc_log (fun l => l ++ calls) s)))
    end.
Proof.
  intros Hw. unfold handle_buy_sell_callback.
  rewrite bind_get, Hw.
  change (PyStr.startswith "buy_" "sell_all") with false.
  change (PyStr.startswith "sell_" "sell_all") with true.
  change (String.eqb "sell_all" "sell_custom") with false.
  change (String.eqb "sell_all" "sell_all") with true.
  cbv beta iota zeta. unfold sell_all_total, sell_all_amounts.
  destruct (PrimFloat.eqb _ 0); [done|].
  run_m. unfold execute_sell_transaction. rewrite execute_transaction_outcome.
  by destruct (transfer_outcome w _ kp).
Qed.

Lemma callback_no_wallet w u data s :
  user_wallets s !! u = None ->
  handle_buy_sell_callback w u data s
  = (inr tt, set_outbox (fun o => o ++ [(u, ConnectBeforeOperating)]) s).
Proof. intros Hw. unfold handle_buy_sell_callback. by rewrite bind_get, Hw. Qed.

(** The boolean filters of the source select by equality of pairs. *)
Lemma filter_matches cp (ps : list Position) :
  List.filter (matches cp) ps = filter (fun pos => pair pos = cp) ps.
Proof.
  induction ps as [|pos ps IH]; [done|]. simpl. rewrite filter_cons.
  unfold matches at 1. destruct (String.eqb_spec (pair pos) cp).
  - rewrite decide_True by done. by rewrite IH.
  - by rewrite decide_False.
Qed.

Lemma filter_not_matches cp (ps : list Position) :
  List.filter (fun pos => negb (matches cp pos)) ps
  = filter (fun pos => pair pos <> cp) ps.
Proof.
  induction ps as [|pos ps IH]; [done|]. simpl. rewrite filter_cons.
  unfold matches at 1. destruct (String.eqb_spec (pair pos) cp); simpl.
  - by rewrite decide_False by tauto.
  - rewrite decide_True by done. by rewrite IH.
Qed.

(** The total of "sell all" in terms of the dictionaries and the
    interpreter's [sum]. *)
Lemma sell_all_total_spelled w s u :
  sell_all_total w s u
  = match filter (fun pos => pair pos = default "" (user_pairs s !! u))
                 (default [] (positions s !! u)) with
    | [] => 0%float
    | _ :: _ =>
        py_sum w
          (amount <$> filter (fun pos => pair pos = default "" (user_pairs s !! u))
                             (default [] (positions s !! u)))
    end.
Proof.
  unfold sell_all_total, sell_all_amounts, pair_or_empty, positions_of.
  rewrite filter_matches. by destruct (filter _ _).
Qed.

(** The two interpreters add ten tenths up differently, and "sell all"
    then offers a different number of lamports. *)
Lemma sell_all_total_follows_the_interpreter :
  PyFloat.to_int
    (PrimFloat.mul
       (sell_all_total (Sample.world Sample.sent (Sample.quote "2")) ten_tenths 1)
       1e9%float) = inr 999999999%Z
  /\ PyFloat.to_int
       (PrimFloat.mul
          (sell_all_total (Sample.world_312 Sample.sent (Sample.quote "2"))
                          ten_tenths 1)
          1e9%float) = inr 1000000000%Z.
Proof. vm_compute. split; reflexivity. Qed.

(** What the oracle's answer makes of a lookup. *)
Lemma oracle_transport_error w chain_id pair_id e :
  requests_get_json w (pair_url chain_id pair_id) = inl e ->
  get_dexscreener_info w chain_id pair_id = None.
Proof. unfold get_dexscreener_info, pair_url. by intros ->. Qed.

Lemma oracle_quoted w chain_id pair_id data pair_info rest v p :
  requests_get_json w (pair_url chain_id pair_id) = inr (JObj data) ->
  jlookup "pairs" data = Some (JArr (JObj pair_info :: rest)) ->
  jlookup "priceUsd" pair_info = Some v ->
  json_truthy v = true ->
  float_of_json w v = Some p ->
  get_dexscreener_info w chain_id pair_id
  = Some (mkInfo (Some p) (jlookup "icon" pair_info)).
Proof.
  unfold get_dexscreener_info, pair_url. by intros -> -> -> -> ->.
Qed.

(** The calls of a submission that went through. *)
Lemma succeeded_calls w amt kp sig calls :
  transfer_outcome w amt kp = Succeeded sig calls ->
  exists n ins bh,
    PyFloat.to_int (PrimFloat.mul amt 1e9%float) = inr n
    /\ transfer w (mkTransferParams (pubkey kp) DEX_WALLET_STR n) = inr ins
    /\ get_latest_blockhash w = inr bh
    /\ send_transaction w (mkTransaction [ins] (pubkey kp) bh [kp] true) = inr sig
    /\ calls = [GetLatestBlockhash;
                SendTransaction (mkTransaction [ins] (pubkey kp) bh [kp] true)].
Proof.
  unfold transfer_outcome. intros H.
  destruct (PyFloat.to_int _) as [?|n]; [discriminate H|].
  destruct (transfer w _) as [?|ins] eqn:Hins; [discriminate H|].
  destruct (get_latest_blockhash w) as [?|bh]; [discriminate H|].
  destruct (send_transaction w _) as [?|sig'] eqn:Hs; [discriminate H|].
  injection H as -> <-. by exists n, ins, bh.
Qed.

(** C1: a buy (preset button or custom free-text amount) by a user with a
    bound wallet.  If the transfer fails, the user is sent the classified
    error (the insufficient-funds text exactly when the lower-cased
    message contains "insufficient funds", else the generic text with
    the raw message) and [positions] is unchanged.  If it succeeds,
    exactly one position is appended at the end of that user's list,
    carrying the amount, the returned signature, the current time, the
    currently selected pair ("" when none is selected) and the price
    looked up before the submission: what [get_dexscreener_info] gave
    for the selected pair, which is the oracle's quote when the first
    pair entry of the answer carries one, and [0.0] when no pair is
    selected or the request fails. *)
Theorem buy_appends_only_on_success w s u kp amt op :
  BuyOp w s u amt op ->
  user_wallets s !! u = Some kp ->
  (forall e calls,
      transfer_outcome w amt kp = Failed e calls ->
      exists uf,
        fst (op s) = inr tt
        /\ outbox (snd (op s)) = outbox s ++ [(u, TxFailed uf)]
        /\ (uf = InsufficientFunds Purchase <->
            exists pre suf,
              PyStr.lower (exn_msg e) = pre +:+ "insufficient funds" +:+ suf)
        /\ (uf <> InsufficientFunds Purchase ->
            uf = ErrorDuring Purchase (exn_msg e))
        /\ positions (snd (op s)) = positions s)
  /\ (forall sig calls,
      transfer_outcome w amt kp = Succeeded sig calls ->
      exists recorded,
        fst (op s) = inr tt
        /\ outbox (snd (op s))
           = outbox s ++ [(u, PurchaseExecuted amt sig (pubkey kp))]
        /\ positions (snd (op s))
           = <[u := default [] (positions s !! u)
                    ++ [mkPosition amt recorded sig (time_time w)
                                   (default "" (user_pairs s !! u))]]>
               (positions s)
        /\ (user_pairs s !! u = None -> recorded = Some 0%float)
        /\ (forall pair_id,
               user_pairs s !! u = Some pair_id ->
               recorded
               = match get_dexscreener_info w CHAIN_ID pair_id with
                 | Some info => price info
                 | None => Some 0%float
                 end
               /\ (forall e,
                      requests_get_json w (pair_url CHAIN_ID pair_id) = inl e ->
                      recorded = Some 0%float)
               /\ (forall data pair_info rest v p,
                      requests_get_json w (pair_url CHAIN_ID pair_id)
                      = inr (JObj data) ->
                      jlookup "pairs" data = Some (JArr (JObj pair_info :: rest)) ->
                      jlookup "priceUsd" pair_info = Some v ->
                      json_truthy v = true ->
                      float_of_json w v = Some p ->
                      recorded = Some p))).
Proof.
  intros Hop Hw.
  assert (Hprice :
            (user_pairs s !! u = None -> buy_price w s u = Some 0%float)
            /\ (forall pair_id,
                   user_pairs s !! u = Some pair_id ->
                   buy_price w s u
                   = match get_dexscreener_info w CHAIN_ID pair_id with
                     | Some info => price info
                     | None => Some 0%float
                     end
                   /\ (forall e,
                          requests_get_json w (pair_url CHAIN_ID pair_id) = inl e ->
                          buy_price w s u = Some 0%float)
                   /\ (forall data pair_info rest v p,
                          requests_get_json w (pair_url CHAIN_ID pair_id)
                          = inr (JObj data) ->
                          jlookup "pairs" data
                          = Some (JArr (JObj pair_info :: rest)) ->
                          jlookup "priceUsd" pair_info = Some v ->
                          json_truthy v = true ->
                          float_of_json w v = Some p ->
                          buy_price w s u = Some p))).
  { unfold buy_price, pair_or_empty, info_price_or_zero. split.
    - by intros ->.
    - intros pair_id ->. simpl default. split; [done|]. split.
      + intros e He. by rewrite (oracle_transport_error _ _ _ e He).
      + intros data pair_info rest v p H1 H2 H3 H4 H5.
        by rewrite (oracle_quoted _ _ _ data pair_info rest v p H1 H2 H3 H4 H5). }
  destruct Hop as [data a Hb Hc Hi Hp | text Hd Hp].
  - rewrite (callback_buy w u data a amt s kp) by done. split.
    + intros e calls ->. exists (classify Purchase e).
      split; [done|]. split; [done|].
      split; [apply classify_insufficient|]. split; [apply classify_other | done].
    + intros sig calls ->. exists (buy_price w s u). by repeat split; try apply Hprice.
  - rewrite (message_handler_buy w u text s kp), Hp by done. cbv zeta. split.
    + intros e calls ->. exists (classify Purchase e).
      split; [done|]. split; [done|].
      split; [apply classify_insufficient|]. split; [apply classify_other | done].
    + intros sig calls ->. exists (buy_price w s u). by repeat split; try apply Hprice.
Qed.

Lemma buy_appends_only_on_success_witness :
  positions
    (snd (handle_buy_sell_callback (Sample.world Sample.sent (Sample.quote "2"))
            1 "buy_0.5" Sample.holding)) !! 1%Z
  = Some [mkPosition 3%float (Some 2%float) "sig-a" 1700000000%float "X";
          mkPosition 2%float (Some 5%float) "sig-b" 1700000001%float "Y";
          mkPosition 0.5%float (Some 2%float) "sig-1" 1700000000%float "X"].
Proof.
  assert (Hop : BuyOp (Sample.world Sample.sent (Sample.quote "2"))
                  Sample.holding 1 0.5%float
                  (handle_buy_sell_callback
                     (Sample.world Sample.sent (Sample.quote "2")) 1 "buy_0.5")).
  { apply (BuyPreset _ _ _ _ "buy_0.5" "0.5"); [reflexivity | discriminate | reflexivity..]. }
  destruct (buy_appends_only_on_success
              (Sample.world Sample.sent (Sample.quote "2")) Sample.holding 1
              Sample.alice 0.5%float _ Hop) as [_ Hok].
  - vm_compute. reflexivity.
  - destruct (Hok "sig-1"
                [GetLatestBlockhash;
                 SendTransaction
                   (mkTransaction
                      [mkTransferParams "A1icePubkey4444" DEX_WALLET_STR 500000000]
                      "A1icePubkey4444" "blockhash-1" [Sample.alice] true)])
      as (recorded & _ & _ & Hpos & _ & Hpair).
    + vm_compute. reflexivity.
    + destruct (Hpair "X") as (_ & _ & Hquote); [vm_compute; reflexivity|].
      rewrite Hpos, lookup_insert_eq.
      rewrite (Hquote [("pairs", JArr [JObj [("priceUsd", JStr "2");
                                                ("icon", JStr "https://icons/x.png")]])]
                      [("priceUsd", JStr "2"); ("icon", JStr "https://icons/x.png")]
                      [] (JStr "2") 2%float);
        reflexivity.
Defined.

(** C2 (as the code has it): "sell all".  Without a bound wallet the
    user is told to connect one and nothing else happens.  With a bound
    wallet, the amount submitted is the sum of the amounts of exactly the
    positions whose pair is the currently selected pair ("" when none is
    selected), as the interpreter's [sum] adds them up; if that sum is
    zero the user is told there is nothing to sell and no RPC call is
    made; if the transfer succeeds, one transaction carrying
    [int(total * 1e9)] lamports has been sent, the matching positions are
    removed and the others kept as they are; if it fails, no position is
    removed. *)
Theorem sell_all_sells_current_pair w s u :
  let current_pair := default "" (user_pairs s !! u) in
  let matching :=
    filter (fun pos => pair pos = current_pair) (default [] (positions s !! u)) in
  let total :=
    match matching with
    | [] => 0%float
    | _ :: _ => py_sum w (amount <$> matching)
    end in
  let r := handle_buy_sell_callback w u "sell_all" s in
  (user_wallets s !! u = None ->
     r = (inr tt, set_outbox (fun o => o ++ [(u, ConnectBeforeOperating)]) s))
  /\ (forall kp,
      user_wallets s !! u = Some kp ->
      (PrimFloat.eqb total 0%float = true ->
         fst r = inr tt
         /\ outbox (snd r) = outbox s ++ [(u, NothingToSell)]
         /\ rpc_log (snd r) = rpc_log s
         /\ positions (snd r) = positions s)
      /\ (PrimFloat.eqb total 0%float = false ->
          (forall e calls,
              transfer_outcome w total kp = Failed e calls ->
              exists uf,
                fst r = inr tt
                /\ outbox (snd r) = outbox s ++ [(u, TxFailed uf)]
                /\ (uf = InsufficientFunds Sale <->
                    exists pre suf,
                      PyStr.lower (exn_msg e)
                      = pre +:+ "insufficient funds" +:+ suf)
                /\ (uf <> InsufficientFunds Sale ->
                    uf = ErrorDuring Sale (exn_msg e))
                /\ rpc_log (snd r) = rpc_log s ++ calls
                /\ (sends calls <= 1)%nat
                /\ positions (snd r) = positions s)
          /\ (forall sig calls,
              transfer_outcome w total kp = Succeeded sig calls ->
              exists n ins bh,
                PyFloat.to_int (PrimFloat.mul total 1e9%float) = inr n
                /\ transfer w (mkTransferParams (pubkey kp) DEX_WALLET_STR n)
                   = inr ins
                /\ get_latest_blockhash w = inr bh
                /\ rpc_log (snd r)
                   = rpc_log s
                     ++ [GetLatestBlockhash;
                         SendTransaction
                           (mkTransaction [ins] (pubkey kp) bh [kp] true)]
                /\ fst r = inr tt
                /\ outbox (snd r)
                   = outbox s ++ [(u, SellAllExecuted total sig (pubkey kp))]
                /\ positions (snd r)
                   = <[u := filter (fun pos => pair pos <> current_pair)
                                   (default [] (positions s !! u))]>
                       (positions s)))).
Proof.
  intros current_pair matching total r. subst r. split.
  - intros Hw. by apply callback_no_wallet.
  - intros kp Hw. rewrite (callback_sell_all w u s kp Hw). cbv zeta.
    rewrite sell_all_total_spelled. fold current_pair matching total.
    unfold pair_or_empty, positions_of. rewrite filter_not_matches.
    fold current_pair. split.
    + intros ->. done.
    + intros ->. split.
      * intros e calls Ho. rewrite Ho. exists (classify Sale e).
        split; [done|]. split; [done|].
        split; [apply classify_insufficient|].
        split; [apply classify_other|]. split; [done|].
        split; [by eapply failed_sends | done].
      * intros sig calls Ho. rewrite Ho.
        destruct (succeeded_calls w total kp sig calls Ho)
          as (n & ins & bh & Hn & Hins & Hbh & _ & ->).
        exists n, ins, bh. by repeat split.
Qed.

Lemma sell_all_sells_current_pair_witness :
  let r := handle_buy_sell_callback (Sample.world Sample.sent (Sample.quote "2"))
             1 "sell_all" Sample.holding in
  positions (snd r) !! 1%Z
  = Some [mkPosition 2%float (Some 5%float) "sig-b" 1700000001%float "Y"]
  /\ outbox (snd r)
     = outbox Sample.holding
       ++ [(1%Z, SellAllExecuted 3%float "sig-1" "A1icePubkey4444")]
  /\ rpc_log (snd r)
     = [GetLatestBlockhash;
        SendTransaction
          (mkTransaction
             [mkTransferParams "A1icePubkey4444" DEX_WALLET_STR 3000000000]
             "A1icePubkey4444" "blockhash-1" [Sample.alice] true)].
Proof.
  destruct (sell_all_sells_current_pair
              (Sample.world Sample.sent (Sample.quote "2")) Sample.holding 1)
    as [_ Hwallet].
  destruct (Hwallet Sample.alice) as [_ Hsell]; [vm_compute; reflexivity|].
  destruct Hsell as [_ Hok]; [vm_compute; reflexivity|].
  destruct (Hok "sig-1"
              [GetLatestBlockhash;
               SendTransaction
                 (mkTransaction
                    [mkTransferParams "A1icePubkey4444" DEX_WALLET_STR 3000000000]
                    "A1icePubkey4444" "blockhash-1" [Sample.alice] true)])
    as (n & ins & bh & Hn & Hins & Hbh & Hlog & _ & Hout & Hpos).
  - vm_compute. reflexivity.
  - cbv zeta. rewrite Hpos, Hout, Hlog, lookup_insert_eq.
    vm_compute in Hn. injection Hn as <-.
    vm_compute in Hins. injection Hins as <-.
    vm_compute in Hbh. injection Hbh as <-.
    repeat split; vm_compute; reflexivity.
Defined.

(** Without a wallet, a "sell all" with nothing to sell is answered with
    the request to connect a wallet, not with "nothing to sell". *)
Lemma sell_all_without_wallet_is_refused :
  let w := Sample.world Sample.sent (Sample.quote "2") in
  let r := handle_buy_sell_callback w 1 "sell_all" initial_state in
  PrimFloat.eqb (sell_all_total w initial_state 1) 0%float = true
  /\ outbox (snd r) = [(1%Z, ConnectBeforeOperating)]
  /\ outbox (snd r) <> outbox initial_state ++ [(1%Z, NothingToSell)].
Proof. vm_compute. repeat split. discriminate. Qed.

(** ** Selling a fixed or custom amount *)

Ltac ledger_leaf := reflexivity.

(** C9: selling a fixed or a custom amount (not "sell all") leaves
    [positions] unchanged, whether the transfer succeeds, fails or is not
    even attempted. *)
Theorem sell_keeps_positions w s u op :
  SellOp w s u op -> positions (snd (op s)) = positions s.
Proof.
  intros [data Hs Hc Ha | text Hd].
  - unfold handle_buy_sell_callback. rewrite bind_get.
    rewrite (sell_is_not_buy data Hs), Hs.
    apply String.eqb_neq in Hc, Ha. rewrite Hc, Ha.
    destruct (user_wallets s !! u); by_frame same_ledger ledger_leaf.
  - dispatch_on Hd. by_frame same_ledger ledger_leaf.
Qed.

Lemma sell_keeps_positions_witness :
  positions
    (snd (handle_buy_sell_callback (Sample.world Sample.sent (Sample.quote "2"))
            1 "sell_10" Sample.holding))
  = positions Sample.holding.
Proof.
  apply (sell_keeps_positions _ _ _ _
           (SellPreset (Sample.world Sample.sent (Sample.quote "2"))
              Sample.holding 1 "sell_10" eq_refl
              ltac:(discriminate) ltac:(discriminate))).
Defined.

(** ** The unguarded wallet lookup *)

Lemma dispatched_cases s u :
  dispatched s u = None
  \/ dispatched s u = Some "awaiting_connectwallet"
  \/ dispatched s u = Some "awaiting_setpair"
  \/ dispatched s u = Some "awaiting_alert"
  \/ dispatched s u = Some "awaiting_buy_custom"
  \/ dispatched s u = Some "awaiting_sell_custom".
Proof.
  unfold dispatched, modes. simpl.
  repeat match goal with
         | |- context [if flag s u ?k then _ else _] => destruct (flag s u k)
         end; tauto.
Qed.

(** With a wallet bound, the only exception that escapes
    [message_handler] is one raised while the transfer instruction of a
    parsed amount is built. *)
Lemma message_handler_raises w u text s kp e :
  user_wallets s !! u = Some kp ->
  fst (message_handler w u text s) = inl e ->
  exists amount,
    py_float w (PyStr.strip text) = Some amount
    /\ transfer_outcome w amount kp = NotSubmitted e.
Proof.
  intros Hw.
  destruct (dispatched_cases s u) as [Hd|[Hd|[Hd|[Hd|[Hd|Hd]]]]].
  - by rewrite message_handler_idle.
  - rewrite message_handler_connect by done. cbv zeta.
    by destruct (keypair_from_base58 w _).
  - by rewrite message_handler_setpair.
  - rewrite message_handler_alert by done. cbv zeta.
    by destruct (py_float w _).
  - rewrite (message_handler_buy w u text s kp) by done. cbv zeta.
    destruct (py_float w _) as [amount|]; [|done].
    destruct (transfer_outcome w amount kp) as [e'|?|?] eqn:Ho; [|done..].
    destruct (except_ValueError e'); [done|]. simpl.
    intros [= ->]. by exists amount.
  - rewrite (message_handler_sell w u text s kp) by done. cbv zeta.
    destruct (py_float w _) as [amount|]; [|done].
    destruct (transfer_outcome w amount kp) as [e'|?|?] eqn:Ho; [|done..].
    destruct (except_ValueError e'); [done|]. simpl.
    intros [= ->]. by exists amount.
Qed.

(** C10: in every state the bot can reach, a user whose
    [awaiting_buy_custom] or [awaiting_sell_custom] flag is set has a
    wallet; no update removes it; and the lookups [user_wallets[user_id]]
    of the free-text buy and sell branches succeed, so that an exception
    leaving [message_handler] can only come from building the transfer
    instruction. *)
Theorem custom_prompt_wallet_bound s u :
  reachable s ->
  flag s u "awaiting_buy_custom" = true \/ flag s u "awaiting_sell_custom" = true ->
  exists kp,
    user_wallets s !! u = Some kp
    /\ (forall k b,
           wallet_of u (snd (set_flag u k b s)) = (inr kp, snd (set_flag u k b s)))
    /\ (forall w upd, is_Some (user_wallets (step s (w, upd)) !! u))
    /\ (forall w text e,
           fst (message_handler w u text s) = inl e ->
           exists amount,
             py_float w (PyStr.strip text) = Some amount
             /\ transfer_outcome w amount kp = NotSubmitted e).
Proof.
  intros Hr Hflag.
  destruct (reachable_custom_prompt s Hr u Hflag) as [kp Hkp].
  exists kp. split; [done|]. split; [|split].
  - intros k b. unfold wallet_of. run_m. state_simpl. by rewrite Hkp.
  - intros w upd. apply (step_wallets w upd s). by exists kp.
  - intros w text e. by apply message_handler_raises.
Qed.

Lemma custom_prompt_wallet_bound_witness :
  exists kp,
    user_wallets
      (step Sample.connected
            (Sample.world Sample.sent (Sample.quote "2"),
             CallbackQuery 1 "buy_custom")) !! 1%Z = Some kp.
Proof.
  destruct (custom_prompt_wallet_bound
              (step Sample.connected
                    (Sample.world Sample.sent (Sample.quote "2"),
                     CallbackQuery 1 "buy_custom")) 1) as (kp & Hkp & _).
  - exists [(Sample.world Sample.sent (Sample.quote "2"),
             Command 1 "connectwallet" ["alice-key"]);
            (Sample.world Sample.sent (Sample.quote "2"),
             Command 1 "setpair" ["X"]);
            (Sample.world Sample.sent (Sample.quote "2"),
             CallbackQuery 1 "buy_custom")].
    reflexivity.
  - left. vm_compute. reflexivity.
  - exists kp. exact Hkp.
Defined.

(** ** Counting the awaiting flags *)

Ltac split_flags s u :=
  repeat match goal with
         | |- context [flag s u ?k] => destruct (flag s u k)
         end.

Ltac decide_writes :=
  repeat case_decide; destruct_and?; simplify_eq;
  try (exfalso; tauto).

Lemma pending_step_le w upd s u :
  (pending (step s (w, upd)) u <= pending s u + 1)%nat.
Proof.
  unfold pending, modes. simpl. rewrite !flag_step.
  destruct (flag_effect upd s) as [[[u' k'] b]|]; [|lia].
  decide_writes; split_flags s u; destruct b; simpl; lia.
Qed.

Lemma pending_text w u text s :
  pending (step s (w, TextMessage u text)) u = (pending s u - 1)%nat.
Proof.
  unfold pending, modes. simpl List.filter. rewrite !flag_step.
  unfold flag_effect, dispatched, modes. simpl List.find.
  destruct (flag s u "awaiting_connectwallet") eqn:H1;
    [decide_writes; split_flags s u; simpl; lia|].
  destruct (flag s u "awaiting_setpair") eqn:H2;
    [decide_writes; split_flags s u; simpl; lia|].
  destruct (flag s u "awaiting_alert") eqn:H3;
    [decide_writes; split_flags s u; simpl; lia|].
  destruct (flag s u "awaiting_buy_custom") eqn:H4;
    [decide_writes; split_flags s u; simpl; lia|].
  destruct (flag s u "awaiting_sell_custom") eqn:H5;
    [decide_writes; split_flags s u; simpl; lia|].
  simpl. lia.
Qed.

Lemma dispatched_pending s u k :
  dispatched s u = Some k -> flag s u k = true /\ (1 <= pending s u)%nat.
Proof.
  unfold dispatched, pending, modes. simpl.
  destruct (flag s u "awaiting_connectwallet") eqn:H1;
    [intros [= <-]; split; [done | simpl; lia]|].
  destruct (flag s u "awaiting_setpair") eqn:H2;
    [intros [= <-]; split; [done | simpl; lia]|].
  destruct (flag s u "awaiting_alert") eqn:H3;
    [intros [= <-]; split; [done | simpl; lia]|].
  destruct (flag s u "awaiting_buy_custom") eqn:H4;
    [intros [= <-]; split; [done | simpl; lia]|].
  destruct (flag s u "awaiting_sell_custom") eqn:H5;
    [intros [= <-]; split; [done | simpl; lia]|].
  done.
Qed.

Lemma clearing_effect_is_text upd s u k :
  flag_effect upd s = Some (u, k, false) -> exists text, upd = TextMessage u text.
Proof.
  intros He.
  destruct upd as [u0 name args | u0 data | u0 text | u0 text | text |];
    simpl in He; [| | | discriminate He | discriminate He |].
  - repeat match type of He with
           | match ?c with _ => _ end = _ => destruct c
           end; discriminate He.
  - repeat match type of He with
           | match ?c with _ => _ end = _ => destruct c
           end; discriminate He.
  - exists text. destruct (dispatched s u0); [|discriminate He].
    by injection He as -> _.
  - discriminate He.
Qed.

Lemma flags_survive w upd s u k :
  (forall text, upd <> TextMessage u text) ->
  flag s u k = true -> flag (step s (w, upd)) u k = true.
Proof.
  intros Hupd Hk. rewrite flag_step.
  destruct (flag_effect upd s) as [[[u' k'] b]|] eqn:He; [|done].
  case_decide as Hd; [|done]. destruct Hd as [-> ->].
  destruct b; [done|].
  destruct (clearing_effect_is_text upd s u k He) as [text ->].
  by destruct (Hupd text).
Qed.

(** C3 (as the code has it): the awaiting flags are independent
    booleans.  Handling one update raises the number of set flags of a
    user by at most one; an update other than that user's free text
    clears none of them, so a newly set mode does not clear an earlier
    one; a free-text message of the user clears exactly one set flag, if
    there is one. *)
Theorem awaiting_flags_are_independent w upd s u :
  (pending (step s (w, upd)) u <= pending s u + 1)%nat
  /\ ((forall text, upd <> TextMessage u text) ->
      forall k, flag s u k = true -> flag (step s (w, upd)) u k = true)
  /\ (forall text, upd = TextMessage u text ->
      pending (step s (w, upd)) u = (pending s u - 1)%nat).
Proof.
  split; [apply pending_step_le|]. split.
  - intros Hupd k. by apply flags_survive.
  - intros text ->. apply pending_text.
Qed.

(** Two button presses leave two awaiting flags set. *)
Lemma two_flags_after_two_buttons :
  pending
    (run initial_state
       [(Sample.world Sample.sent (Sample.quote "2"),
         CallbackQuery 1 "menu_connectwallet");
        (Sample.world Sample.sent (Sample.quote "2"),
         CallbackQuery 1 "menu_setpair")]) 1 = 2%nat.
Proof. vm_compute. reflexivity. Qed.

(** ** Free text that does not parse *)

Lemma message_handler_buy_invalid w u text s :
  dispatched s u = Some "awaiting_buy_custom" ->
  py_float w (PyStr.strip text) = None ->
  message_handler w u text s =
  (inr tt,
   set_outbox (fun o => o ++ [(u, InvalidAmountBuy)])
     (set_user_data (write_flag u "awaiting_buy_custom" false) s)).
Proof.
  intros Hd Hp. dispatch_on Hd. unfold float_of_str. rewrite Hp. by run_m.
Qed.

Lemma message_handler_sell_invalid w u text s :
  dispatched s u = Some "awaiting_sell_custom" ->
  py_float w (PyStr.strip text) = None ->
  message_handler w u text s =
  (inr tt,
   set_outbox (fun o => o ++ [(u, InvalidAmountSell)])
     (set_user_data (write_flag u "awaiting_sell_custom" false) s)).
Proof.
  intros Hd Hp. dispatch_on Hd. unfold float_of_str. rewrite Hp. by run_m.
Qed.

Lemma parse_failure_frame w u text s k err :
  dispatched s u = Some k ->
  parse_failure w k (PyStr.strip text) = Some err ->
  fst (message_handler w u text s) = inr tt
  /\ (exists rest,
         outbox (snd (message_handler w u text s)) = outbox s ++ (u, err) :: rest)
  /\ user_wallets (snd (message_handler w u text s)) = user_wallets s
  /\ user_pairs (snd (message_handler w u text s)) = user_pairs s
  /\ price_alerts (snd (message_handler w u text s)) = price_alerts s
  /\ positions (snd (message_handler w u text s)) = positions s.
Proof.
  intros Hk Hf.
  destruct (dispatched_cases s u) as [Hd|[Hd|[Hd|[Hd|[Hd|Hd]]]]];
    rewrite Hd in Hk; try discriminate Hk; injection Hk as <-;
    unfold parse_failure in Hf; simpl in Hf.
  - rewrite message_handler_connect by done. cbv zeta.
    destruct (keypair_from_base58 w _) as [e|kp]; [|discriminate Hf].
    injection Hf as <-. repeat split; by eexists.
  - discriminate Hf.
  - rewrite message_handler_alert by done. cbv zeta.
    destruct (py_float w _); [discriminate Hf|].
    injection Hf as <-. repeat split; by eexists.
  - destruct (py_float w _) eqn:Hp; [discriminate Hf|].
    rewrite message_handler_buy_invalid by done.
    injection Hf as <-. repeat split; by eexists.
  - destruct (py_float w _) eqn:Hp; [discriminate Hf|].
    rewrite message_handler_sell_invalid by done.
    injection Hf as <-. repeat split; by eexists.
Qed.

(** C7 (as the code has it): a free-text reply handled while some
    awaiting flag is set clears the flag it is dispatched on before
    anything else, so the flag is clear however the handler ends, and
    leaves the other flags as they were: the session is idle afterwards
    exactly when no other flag was set.  When the text does not parse, the
    user is sent an error message and wallets, pairs, alert thresholds and
    positions are unchanged. *)
Theorem free_text_clears_dispatched_flag w u text s k :
  dispatched s u = Some k ->
  flag (snd (message_handler w u text s)) u k = false
  /\ (forall k', k' <> k -> flag (snd (message_handler w u text s)) u k' = flag s u k')
  /\ (idle (snd (message_handler w u text s)) u <-> pending s u = 1%nat)
  /\ (forall err,
         parse_failure w k (PyStr.strip text) = Some err ->
         fst (message_handler w u text s) = inr tt
         /\ (exists rest,
                outbox (snd (message_handler w u text s))
                = outbox s ++ (u, err) :: rest)
         /\ user_wallets (snd (message_handler w u text s)) = user_wallets s
         /\ user_pairs (snd (message_handler w u text s)) = user_pairs s
         /\ price_alerts (snd (message_handler w u text s)) = price_alerts s
         /\ positions (snd (message_handler w u text s)) = positions s).
Proof.
  intros Hd.
  change (snd (message_handler w u text s)) with (step s (w, TextMessage u text)).
  split; [|split; [|split]].
  - rewrite flag_step. simpl flag_effect. rewrite Hd. by rewrite decide_True.
  - intros k' Hne. rewrite flag_step. simpl flag_effect. rewrite Hd.
    rewrite decide_False; [done | intros [_ ?]; congruence].
  - unfold idle. rewrite pending_text.
    destruct (dispatched_pending s u k Hd) as [_ Hp]. lia.
  - intros err Hf. by apply (parse_failure_frame w u text s k err).
Qed.

Lemma free_text_clears_dispatched_flag_witness :
  flag (snd (message_handler (Sample.world Sample.sent (Sample.quote "2")) 1
               "not a number"
               (step Sample.connected
                     (Sample.world Sample.sent (Sample.quote "2"),
                      CallbackQuery 1 "buy_custom")))) 1 "awaiting_buy_custom"
  = false.
Proof.
  apply (free_text_clears_dispatched_flag
           (Sample.world Sample.sent (Sample.quote "2")) 1 "not a number"
           (step Sample.connected
                 (Sample.world Sample.sent (Sample.quote "2"),
                  CallbackQuery 1 "buy_custom")) "awaiting_buy_custom").
  vm_compute. reflexivity.
Defined.

(** With two flags set, an undecodable key leaves the session waiting
    for an alert price. *)
Lemma not_idle_after_bad_key :
  let w := Sample.world Sample.sent (Sample.quote "2") in
  let s := run initial_state
             [(w, CallbackQuery 1 "menu_connectwallet");
              (w, CallbackQuery 1 "menu_alert")] in
  dispatched s 1 = Some "awaiting_connectwallet"
  /\ parse_failure w "awaiting_connectwallet" (PyStr.strip "not a key")
     = Some (ErrorConnectingWallet "Invalid character")
  /\ flag (snd (message_handler w 1 "not a key" s)) 1 "awaiting_alert" = true
  /\ ~ idle (snd (message_handler w 1 "not a key" s)) 1.
Proof. vm_compute. repeat split; discriminate. Qed.

(** ** The alert scan *)

Lemma set_outbox_nil s : set_outbox (fun o => o ++ []) s = s.
Proof. destruct s. unfold set_outbox. simpl. by rewrite app_nil_r. Qed.

Lemma set_outbox_app l1 l2 s :
  set_outbox (fun o => o ++ l2) (set_outbox (fun o => o ++ l1) s)
  = set_outbox (fun o => o ++ (l1 ++ l2)) s.
Proof. unfold set_outbox. simpl. by rewrite app_assoc. Qed.

Lemma watch_one_run w sub s :
  watch_one w sub s
  = (inr tt, set_outbox (fun o => o ++ option_list (alert_for w s sub)) s).
Proof.
  unfold watch_one, alert_for. cbv zeta. rewrite bind_get.
  destruct (user_pairs s !! fst sub) as [pair_id|];
    [|by rewrite set_outbox_nil].
  destruct (info_price _) as [p|]; [|by rewrite set_outbox_nil].
  destruct (PyFloat.truthy p && PrimFloat.leb (snd sub) p);
    [done | by rewrite set_outbox_nil].
Qed.

Lemma for_each_watch w subs s :
  for_each subs (watch_one w) s
  = (inr tt, set_outbox (fun o => o ++ omap (alert_for w s) subs) s).
Proof.
  revert s. induction subs as [|sub subs IH]; intros s.
  - simpl. unfold ret. by rewrite set_outbox_nil.
  - simpl. unfold bind. rewrite watch_one_run, IH, set_outbox_app.
    change (alert_for w (set_outbox _ s)) with (alert_for w s).
    by destruct (alert_for w s sub).
Qed.

Lemma price_watcher_run w s :
  price_watcher w s
  = (inr tt,
     set_outbox (fun o => o ++ omap (alert_for w s) (map_to_list (price_alerts s))) s).
Proof. unfold price_watcher. rewrite bind_get. apply for_each_watch. Qed.

(** C6 (as the code has it): in one alert scan a user who has both a
    threshold and a selected pair is notified if and only if the oracle
    returned a price that is truthy (present and not zero) and
    [price >= threshold].  Nothing is remembered between scans: for the
    quotes 9, 11, 11 against the threshold 10 the first scan sends
    nothing and the second and the third each send the alert. *)
Theorem alert_fires_each_scan_at_or_above_threshold :
  (forall w s,
      exists fired,
        price_watcher w s = (inr tt, set_outbox (fun o => o ++ fired) s)
        /\ forall u r,
            (u, r) ∈ fired <->
            exists threshold pair_id p,
              price_alerts s !! u = Some threshold
              /\ user_pairs s !! u = Some pair_id
              /\ info_price (get_dexscreener_info w CHAIN_ID pair_id) = Some p
              /\ PyFloat.truthy p = true
              /\ PrimFloat.leb threshold p = true
              /\ r = AlertFired pair_id p threshold)
  /\ (let s0 := Sample.subscribed in
      outbox (run s0 [Sample.scan "9"]) = outbox s0
      /\ outbox (run s0 [Sample.scan "9"; Sample.scan "11"])
         = outbox s0 ++ [(1%Z, AlertFired "X" 11%float 10%float)]
      /\ outbox (run s0 [Sample.scan "9"; Sample.scan "11"; Sample.scan "11"])
         = outbox s0 ++ [(1%Z, AlertFired "X" 11%float 10%float);
                         (1%Z, AlertFired "X" 11%float 10%float)]).
Proof.
  split; [|vm_compute; done].
  intros w s. eexists. split; [apply price_watcher_run|].
  intros u r. rewrite list_elem_of_omap. split.
  - intros ([u' threshold] & Hin & Hfire).
    apply elem_of_map_to_list in Hin. unfold alert_for in Hfire. simpl in Hfire.
    destruct (user_pairs s !! u') as [pair_id|] eqn:Hpair; [|done].
    destruct (info_price _) as [p|] eqn:Hprice; [|done].
    destruct (PyFloat.truthy p && PrimFloat.leb threshold p) eqn:Hc; [|done].
    apply andb_true_iff in Hc as [Ht Hl]. injection Hfire as -> <-.
    by exists threshold, pair_id, p.
  - intros (threshold & pair_id & p & Ha & Hpair & Hprice & Ht & Hl & ->).
    exists (u, threshold). split; [by apply elem_of_map_to_list|].
    unfold alert_for. simpl. by rewrite Hpair, Hprice, Ht, Hl.
Qed.

(** A quote of exactly zero against the threshold zero: [price >=
    threshold] holds and no alert is sent. *)
Lemma zero_price_never_fires :
  let w := Sample.world Sample.sent (Sample.quote "0") in
  let s := set_price_alerts (fun m => <[1%Z := 0%float]> m) Sample.connected in
  price_alerts s !! 1%Z = Some 0%float
  /\ user_pairs s !! 1%Z = Some "X"
  /\ info_price (get_dexscreener_info w CHAIN_ID "X") = Some 0%float
  /\ PrimFloat.leb 0%float 0%float = true
  /\ outbox (snd (price_watcher w s)) = outbox s.
Proof. vm_compute. repeat split. Qed.

(** ** Prices that are missing *)

(** C4: with pair "X" selected, a position in it and an oracle that has
    no price, [positions_command] raises [TypeError] at the subtraction
    and sends nothing. *)
Theorem positions_without_price_raises :
  let w := Sample.world Sample.sent Sample.no_pairs in
  user_pairs Sample.holding !! 1%Z = Some "X"
  /\ info_price (get_dexscreener_info w CHAIN_ID "X") = None
  /\ positions_command w 1 Sample.holding
     = (inl (mkExn TypeError "unsupported operand type(s) for -"), Sample.holding).
Proof. vm_compute. repeat split. Qed.

(** C5: with pair "X" selected and an oracle entry that carries no
    "priceUsd", a successful buy records the purchase price [None], not
    [0.0]. *)
Theorem buy_without_price_records_none :
  let w := Sample.world Sample.sent Sample.quote_without_price in
  let r := handle_buy_sell_callback w 1 "buy_0.5" Sample.connected in
  get_dexscreener_info w CHAIN_ID "X"
  = Some (mkInfo None (Some (JStr "https://icons/x.png")))
  /\ fst r = inr tt
  /\ positions (snd r) !! 1%Z
     = Some [mkPosition 0.5%float None "sig-1" 1700000000%float "X"].
Proof. vm_compute. repeat split. Qed.

(** * Further properties *)

(** ** Commands that only read *)

Global Instance same_dicts_preorder : PreOrder same_dicts.
Proof.
  split; unfold same_dicts.
  - done.
  - intros x y z (?&?&?&?&?) (?&?&?&?&?). repeat split; congruence.
Qed.

Ltac dicts_leaf := by repeat split.

(** X1: [start_command], [price_command], [balance_command],
    [positions_command], [buy_command], [sell_command] and the alert scan
    write to no dictionary and to no flag, whether they return or raise. *)
Theorem reading_handlers_write_nothing w u s :
  same_dicts s (snd (start_command u s))
  /\ same_dicts s (snd (price_command w u s))
  /\ same_dicts s (snd (balance_command w u s))
  /\ same_dicts s (snd (positions_command w u s))
  /\ same_dicts s (snd (buy_command u s))
  /\ same_dicts s (snd (sell_command u s))
  /\ same_dicts s (snd (price_watcher w s)).
Proof.
  pose proof (fun (m : M unit) (H : respects same_dicts m) => H s) as Hs.
  refine (conj _ (conj _ (conj _ (conj _ (conj _ (conj _ _))))));
    apply Hs; respects_auto dicts_leaf.
Qed.

(** ** One user's update and the other users *)

Global Instance others_kept_preorder u : PreOrder (others_kept u).
Proof.
  split; unfold others_kept.
  - done.
  - intros x y z Hxy Hyz u' Hne.
    destruct (Hxy u' Hne) as (?&?&?&?&?), (Hyz u' Hne) as (?&?&?&?&?).
    repeat split; congruence.
Qed.

Ltac others_leaf :=
  let u' := fresh "u'" in
  let Hne := fresh "Hne" in
  intros u' Hne; unfold write_flag; simpl;
  repeat split; try reflexivity; by rewrite lookup_insert_ne.

Lemma handle_update_others w upd u :
  acting_user upd = Some u -> respects (others_kept u) (handle_update w upd).
Proof.
  destruct upd as [u0 name args | u0 data | u0 text | u0 text | text |]; simpl;
    intros Ha; try discriminate Ha; injection Ha as <-;
    respects_auto others_leaf.
Qed.

(** X2: Handling an update of one user changes no entry of any other user in
    [user_pairs], [price_alerts], [user_wallets], [positions] or the
    flags, and the alert scan changes no entry at all. *)
Theorem update_leaves_other_users_alone w upd s u :
  acting_user upd <> Some u ->
  user_pairs (step s (w, upd)) !! u = user_pairs s !! u
  /\ price_alerts (step s (w, upd)) !! u = price_alerts s !! u
  /\ user_wallets (step s (w, upd)) !! u = user_wallets s !! u
  /\ positions (step s (w, upd)) !! u = positions s !! u
  /\ user_data (step s (w, upd)) !! u = user_data s !! u.
Proof.
  intros Hu. unfold step. simpl fst. simpl snd.
  destruct (acting_user upd) as [u0|] eqn:Ha.
  - apply (handle_update_others w upd u0 Ha s). congruence.
  - destruct upd; try discriminate Ha; [done|].
    assert (Hr : respects same_dicts (price_watcher w))
      by respects_auto dicts_leaf.
    unfold handle_update. destruct (Hr s) as (-> & -> & -> & -> & ->). done.
Qed.

Lemma update_leaves_other_users_alone_witness :
  user_wallets
    (step Sample.connected
          (Sample.world Sample.sent (Sample.quote "2"),
           Command 2 "connectwallet" ["alice-key"])) !! 1%Z
  = user_wallets Sample.connected !! 1%Z.
Proof.
  apply (update_leaves_other_users_alone
           (Sample.world Sample.sent (Sample.quote "2"))
           (Command 2 "connectwallet" ["alice-key"]) Sample.connected 1).
  simpl. discriminate.
Defined.

(** ** No wallet, no RPC *)

Global Instance same_rpc_preorder : PreOrder same_rpc.
Proof. split; unfold same_rpc; [done | intros x y z; congruence]. Qed.

Ltac rpc_leaf := reflexivity.

Lemma balance_command_no_wallet w u s :
  user_wallets s !! u = None ->
  balance_command w u s
  = (inr tt, set_outbox (fun o => o ++ [(u, NoWalletForBalance)]) s).
Proof. intros Hw. unfold balance_command. rewrite bind_get, Hw. done. Qed.

Lemma menu_no_wallet_rpc w u data s :
  user_wallets s !! u = None ->
  rpc_log (snd (handle_main_menu_callback w u data s)) = rpc_log s.
Proof.
  intros Hw. unfold handle_main_menu_callback.
  repeat match goal with
         | |- context [if String.eqb data ?k then _ else _] =>
             destruct (String.eqb data k)
         end;
    first [ by rewrite balance_command_no_wallet
          | solve [by_frame same_rpc rpc_leaf] ].
Qed.

(** X4: In every reachable state, handling an update of a user who has no
    wallet issues no RPC call at all: no balance query, no blockhash
    request, no transaction. *)
Theorem no_wallet_no_rpc w upd s u :
  reachable s ->
  user_wallets s !! u = None ->
  acting_user upd = Some u ->
  rpc_log (step s (w, upd)) = rpc_log s.
Proof.
  intros Hr Hw Ha. unfold step. simpl fst. simpl snd.
  destruct upd as [u0 name args | u0 data | u0 text | u0 text | text |];
    simpl in Ha; try discriminate Ha; injection Ha as ->; unfold handle_update;
    [| | | done].
  - repeat match goal with
           | |- context [if String.eqb name ?k then _ else _] =>
               destruct (String.eqb name k)
           end;
      first [ by rewrite balance_command_no_wallet
            | solve [by_frame same_rpc rpc_leaf] ].
  - destruct (PyStr.startswith "menu_" data); [by apply menu_no_wallet_rpc|].
    destruct (_ || _); [|done].
    unfold handle_buy_sell_callback. by rewrite bind_get, Hw.
  - destruct (dispatched_cases s u) as [Hd|[Hd|[Hd|[Hd|[Hd|Hd]]]]].
    + by rewrite message_handler_idle.
    + rewrite message_handler_connect by done. cbv zeta.
      by destruct (keypair_from_base58 w _).
    + by rewrite message_handler_setpair.
    + rewrite message_handler_alert by done. cbv zeta.
      by destruct (py_float w _).
    + destruct (dispatched_pending s u _ Hd) as [Hf _].
      destruct (reachable_custom_prompt s Hr u (or_introl Hf)) as [kp Hkp].
      congruence.
    + destruct (dispatched_pending s u _ Hd) as [Hf _].
      destruct (reachable_custom_prompt s Hr u (or_intror Hf)) as [kp Hkp].
      congruence.
Qed.

Lemma no_wallet_no_rpc_witness :
  rpc_log (step initial_state
                (Sample.world Sample.sent (Sample.quote "2"),
                 CallbackQuery 1 "buy_0.5"))
  = rpc_log initial_state.
Proof.
  apply (no_wallet_no_rpc (Sample.world Sample.sent (Sample.quote "2"))
           (CallbackQuery 1 "buy_0.5") initial_state 1).
  - exists []. reflexivity.
  - reflexivity.
  - reflexivity.
Defined.

(** ** The balance query *)



(** ** What a transfer submission sends *)

Lemma set_rpc_log_nil s : set_rpc_log (fun l => l ++ []) s = s.
Proof. destruct s. unfold set_rpc_log. simpl. by rewrite app_nil_r. Qed.

(** X6: [execute_buy_transaction] and [execute_sell_transaction] change
    nothing but the RPC log.  They request a fresh blockhash before
    anything is sent, and send at most one transaction: a single transfer
    of [int(amount * 1e9)] lamports from the user's key to the fixed
    counterparty, paid and signed by the user, with preflight skipped.
    A result with status "ok" means exactly one transaction was sent. *)
Theorem execute_transaction_submits w side amount kp s :
  exists calls,
    snd (execute_transaction w side amount kp s)
    = set_rpc_log (fun l => l ++ calls) s
    /\ (calls = []
        \/ calls = [GetLatestBlockhash]
        \/ exists n ins bh,
             PyFloat.to_int (PrimFloat.mul amount 1e9%float) = inr n
             /\ transfer w (mkTransferParams (pubkey kp) DEX_WALLET_STR n) = inr ins
             /\ get_latest_blockhash w = inr bh
             /\ calls = [GetLatestBlockhash;
                         SendTransaction
                           (mkTransaction [ins] (pubkey kp) bh [kp] true)])
    /\ (forall sig,
           fst (execute_transaction w side amount kp s) = inr (TxOk sig) ->
           sends calls = 1%nat).
Proof.
  rewrite execute_transaction_outcome. unfold transfer_outcome.
  destruct (PyFloat.to_int _) as [e|n];
    [exists []; rewrite set_rpc_log_nil; split; [done|]; split; [auto | done]|].
  destruct (transfer w _) as [e|ins] eqn:Hins;
    [exists []; rewrite set_rpc_log_nil; split; [done|]; split; [auto | done]|].
  destruct (get_latest_blockhash w) as [e|bh].
  - exists [GetLatestBlockhash]. split; [done|].
    split; [by right; left | intros sig H; simpl in H; discriminate H].
  - destruct (send_transaction w _) as [e|sig]; eexists; (split; [done|]);
      (split; [right; right; by exists n, ins, bh |]).
    + intros sig H. simpl in H. discriminate H.
    + done.
Qed.

(** ** Button data *)

Lemma split_nonempty sep s : PyStr.split sep s <> [].
Proof. destruct s as [|c s]; simpl; [done|]. by repeat case_match. Qed.

(** X7: The amount of a buy or sell button is read with
    [data.split("_")[1]]: for data beginning with "buy_" or "sell_" that
    index exists, so the lookup cannot raise [IndexError], and it is the
    text between the first and the second underscore. *)
Theorem button_amount_index_exists data :
  PyStr.startswith "buy_" data = true \/ PyStr.startswith "sell_" data = true ->
  exists a rest suf,
    (data = "buy_" +:+ suf \/ data = "sell_" +:+ suf)
    /\ PyStr.split "_" suf = a :: rest
    /\ index1 (PyStr.split "_" data) = inr a.
Proof.
  intros [H | H]; apply startswith_spec in H as [suf ->];
    destruct (PyStr.split "_" suf) as [|a rest] eqn:Hs;
    try (by destruct (split_nonempty "_" suf));
    exists a, rest, suf; (split; [auto|]); (split; [done|]);
    simpl; change ("" +:+ suf) with suf; by rewrite Hs.
Qed.

Lemma button_amount_index_exists_witness :
  exists a rest suf,
    ("sell_500" = "buy_" +:+ suf \/ "sell_500" = "sell_" +:+ suf)
    /\ PyStr.split "_" suf = a :: rest
    /\ index1 (PyStr.split "_" "sell_500") = inr a.
Proof.
  apply (button_amount_index_exists "sell_500"). right. reflexivity.
Defined.

(** ** Free text with nothing pending *)

(** X8: A new text message of a user none of whose awaiting flags is set
    is ignored: no message, no change, no exception.  An edited text
    message or a channel post is not ignored: it reaches
    [message_handler] without [update.message], which raises
    [AttributeError] at line 386 before anything is read or written. *)
Theorem free_text_ignored_when_idle w u text s :
  idle s u ->
  handle_update w (TextMessage u text) s = (inr tt, s)
  /\ (exists e,
         exn_class e = AttributeError
         /\ forall u' text',
             handle_update w (EditedMessage u' text') s = (inl e, s)
             /\ handle_update w (ChannelPost text') s = (inl e, s)).
Proof.
  intros Hi. split.
  - apply message_handler_idle.
    destruct (dispatched s u) as [k|] eqn:Hd; [|done].
    destruct (dispatched_pending s u k Hd) as [_ Hp]. unfold idle in Hi. lia.
  - by eexists (mkExn AttributeError _).
Qed.

Lemma free_text_ignored_when_idle_witness :
  handle_update (Sample.world Sample.sent (Sample.quote "2"))
                (TextMessage 1 "hello") Sample.connected
  = (inr tt, Sample.connected).
Proof.
  apply (free_text_ignored_when_idle
           (Sample.world Sample.sent (Sample.quote "2")) 1 "hello"
           Sample.connected).
  vm_compute. reflexivity.
Defined.

(** ** Amounts no instruction can be built from *)

(** X9: A custom amount that [float] accepts but for which building the
    transfer instruction raises (a NaN, an infinity, an amount [transfer]
    rejects): a [ValueError] is answered like unparsable text, with
    "Invalid amount"; any other exception leaves the handler without a
    message.  In both cases nothing is submitted and no position is
    added. *)
Theorem custom_buy_amount_not_submittable w u text s kp amount e :
  dispatched s u = Some "awaiting_buy_custom" ->
  user_wallets s !! u = Some kp ->
  py_float w (PyStr.strip text) = Some amount ->
  transfer_outcome w amount kp = NotSubmitted e ->
  rpc_log (snd (message_handler w u text s)) = rpc_log s
  /\ positions (snd (message_handler w u text s)) = positions s
  /\ (exn_class e = ValueError ->
      fst (message_handler w u text s) = inr tt
      /\ outbox (snd (message_handler w u text s))
         = outbox s ++ [(u, InvalidAmountBuy)])
  /\ (exn_class e <> ValueError ->
      fst (message_handler w u text s) = inl e
      /\ outbox (snd (message_handler w u text s)) = outbox s).
Proof.
  intros Hd Hw Hp Ho.
  rewrite (message_handler_buy w u text s kp), Hp, Ho by done. cbv zeta.
  unfold except_ValueError. case_bool_decide as Hc; simpl; repeat split; done.
Qed.

Lemma custom_buy_amount_not_submittable_witness :
  outbox
    (snd (message_handler (world_with_specials Sample.sent (Sample.quote "2")) 1
            "nan"
            (step Sample.connected
                  (Sample.world Sample.sent (Sample.quote "2"),
                   CallbackQuery 1 "buy_custom"))))
  = outbox (step Sample.connected
                 (Sample.world Sample.sent (Sample.quote "2"),
                  CallbackQuery 1 "buy_custom"))
    ++ [(1%Z, InvalidAmountBuy)].
Proof.
  destruct (custom_buy_amount_not_submittable
              (world_with_specials Sample.sent (Sample.quote "2")) 1 "nan"
              (step Sample.connected
                    (Sample.world Sample.sent (Sample.quote "2"),
                     CallbackQuery 1 "buy_custom"))
              Sample.alice PrimFloat.nan
              (mkExn ValueError "cannot convert float NaN to integer"))
    as (_ & _ & Hv & _).
  - vm_compute. reflexivity.
  - vm_compute. reflexivity.
  - vm_compute. reflexivity.
  - vm_compute. reflexivity.
  - apply Hv. reflexivity.
Defined.

(** ** Connecting a wallet *)

Lemma connectwallet_command_run w u k args s :
  connectwallet_command w u (k :: args) s =
  match keypair_from_base58 w k with
  | inl e =>
      (inr tt,
       set_outbox (fun o => o ++ [(u, ErrorConnectingWallet (exn_msg e));
                                   (u, MainMenu (wallet_status s u))]) s)
  | inr kp =>
      (inr tt,
       set_outbox (fun o => o ++ [(u, WalletConnected (PyStr.take 7 (pubkey kp)));
                                   (u, MainMenu (Some (PyStr.take 7 (pubkey kp))))])
         (set_user_wallets (fun m => <[u := kp]> m) s))
  end.
Proof.
  unfold connectwallet_command, start_command, wallet_status. run_m.
  destruct (keypair_from_base58 w k) as [e|kp]; state_simpl.
  - unfold set_outbox. state_simpl. by rewrite <- app_assoc.
  - rewrite lookup_insert_eq. unfold set_outbox. state_simpl.
    by rewrite <- app_assoc.
Qed.






(** ** Free text and the command it stands for *)

(** X12: A free-text answer to the key, pair or alert prompt writes to the
    dictionaries exactly what the command with the stripped text as its
    argument writes: [/connectwallet], [/setpair] and [/alert]
    respectively.  Both end without an exception. *)
Theorem free_text_writes_what_the_command_writes w u text s :
  let a := message_handler w u text s in
  forall b,
    (dispatched s u = Some "awaiting_connectwallet"
     /\ b = connectwallet_command w u [PyStr.strip text] s)
    \/ (dispatched s u = Some "awaiting_setpair"
        /\ b = setpair_command u [PyStr.strip text] s)
    \/ (dispatched s u = Some "awaiting_alert"
        /\ b = alert_command w u [PyStr.strip text] s) ->
    fst a = inr tt /\ fst b = inr tt
    /\ user_wallets (snd a) = user_wallets (snd b)
    /\ user_pairs (snd a) = user_pairs (snd b)
    /\ price_alerts (snd a) = price_alerts (snd b)
    /\ positions (snd a) = positions (snd b).
Proof.
  intros a b [[Hd ->] | [[Hd ->] | [Hd ->]]]; subst a.
  - rewrite message_handler_connect, connectwallet_command_run by done.
    cbv zeta. by destruct (keypair_from_base58 w _).
  - rewrite message_handler_setpair by done.
    unfold setpair_command, start_command. run_m. done.
  - rewrite message_handler_alert by done. cbv zeta.
    unfold alert_command, float_of_str. run_m.
    by destruct (py_float w _).
Qed.

Lemma free_text_writes_what_the_command_writes_witness :
  price_alerts
    (snd (message_handler (Sample.world Sample.sent (Sample.quote "2")) 1 " 10 "
            (step Sample.connected
                  (Sample.world Sample.sent (Sample.quote "2"),
                   CallbackQuery 1 "menu_alert"))))
  = price_alerts
      (snd (alert_command (Sample.world Sample.sent (Sample.quote "2")) 1
              [PyStr.strip " 10 "]
              (step Sample.connected
                    (Sample.world Sample.sent (Sample.quote "2"),
                     CallbackQuery 1 "menu_alert")))).
Proof.
  eapply (free_text_writes_what_the_command_writes
            (Sample.world Sample.sent (Sample.quote "2")) 1 " 10 "
            (step Sample.connected
                  (Sample.world Sample.sent (Sample.quote "2"),
                   CallbackQuery 1 "menu_alert"))).
  right. right. split; [vm_compute; reflexivity | reflexivity].
Defined.

(** ** The positions report *)


Lemma pnl_rows_raises cur ps rows tot e :
  pnl_rows cur ps rows tot = inl e ->
  exn_class e = TypeError
  /\ ps <> []
  /\ (cur = None \/ Exists (fun pos => purchase_price pos = None) ps).
Proof.
  revert rows tot. induction ps as [|pos ps IH]; intros rows tot; simpl; [done|].
  destruct cur as [c|]; simpl.
  - destruct (purchase_price pos) as [pp|] eqn:Hpp; simpl.
    + intros H. destruct (IH _ _ H) as (Hc & _ & [? | Hex]); [done|].
      split; [done|]. split; [done|]. right. by constructor 2.
    + intros [= <-]. split; [done|]. split; [done|]. right. by constructor 1.
  - intros [= <-]. split; [done|]. split; [done|]. by left.
Qed.



(** X14: [/positions] raises only at the subtraction: if it raises, the
    exception is a [TypeError], no message has been sent, the user has a
    selected pair, and either the oracle gave no price or some position of
    the selected pair was recorded without a purchase price. *)
Theorem positions_command_raises_only_on_missing_price w u s e :
  fst (positions_command w u s) = inl e ->
  exn_class e = TypeError
  /\ snd (positions_command w u s) = s
  /\ exists current_pair,
       user_pairs s !! u = Some current_pair
       /\ (info_price (get_dexscreener_info w CHAIN_ID current_pair) = None
           \/ Exists (fun pos => pair pos = current_pair
                                 /\ purchase_price pos = None)
                     (positions_of s u)).
Proof.
  unfold positions_command, positions_of. rewrite bind_get.
  destruct (positions s !! u) as [[|p0 ps0]|]; try done.
  destruct (user_pairs s !! u) as [current_pair|]; [|done].
  change (fun pos : Position => String.eqb (pair pos) current_pair)
    with (matches current_pair).
  rewrite filter_matches. cbv zeta.
  destruct (filter _ (p0 :: ps0)) as [|f0 fs] eqn:Hf; [done|].
  run_m. destruct (pnl_rows _ _ _ _) as [e'|r] eqn:Hrun; [|done].
  simpl. intros [= ->].
  destruct (pnl_rows_raises _ _ _ _ _ Hrun) as (Hc & _ & Hwhy).
  split; [done|]. split; [done|]. exists current_pair. split; [done|].
  destruct Hwhy as [? | Hex]; [by left | right]. rewrite <- Hf in Hex.
  apply Exists_exists in Hex as (pos & Hin & Hnone).
  apply list_elem_of_In, list_elem_of_filter in Hin as [Hp Hin].
  apply Exists_exists. exists pos. split; [by apply list_elem_of_In | done].
Qed.

Lemma positions_command_raises_only_on_missing_price_witness :
  exn_class (mkExn TypeError "unsupported operand type(s) for -") = TypeError
  /\ snd (positions_command (Sample.world Sample.sent Sample.no_pairs) 1
            Sample.holding) = Sample.holding.
Proof.
  destruct (positions_command_raises_only_on_missing_price
              (Sample.world Sample.sent Sample.no_pairs) 1 Sample.holding
              (mkExn TypeError "unsupported operand type(s) for -"))
    as (Hc & Hs & _).
  - vm_compute. reflexivity.
  - split; [exact Hc | exact Hs].
Defined.

(** ** Selling all, again *)

Lemma filter_matches_nothing_left cp (ps : list Position) :
  List.filter (matches cp) (List.filter (fun pos => negb (matches cp pos)) ps) = [].
Proof.
  induction ps as [|pos ps IH]; [done|]. simpl.
  destruct (matches cp pos) eqn:Hm; simpl; [done|]. by rewrite Hm.
Qed.

(** X15: After a successful "sell all", a second "sell all" (whatever the
    collaborators then answer) finds nothing to sell: it sends that
    message, issues no RPC call and leaves the positions as they are. *)
Theorem sell_all_twice_sells_once w w' u s kp sig calls :
  user_wallets s !! u = Some kp ->
  PrimFloat.eqb (sell_all_total w s u) 0%float = false ->
  transfer_outcome w (sell_all_total w s u) kp = Succeeded sig calls ->
  let s1 := snd (handle_buy_sell_callback w u "sell_all" s) in
  sell_all_total w' s1 u = 0%float
  /\ handle_buy_sell_callback w' u "sell_all" s1
     = (inr tt, set_outbox (fun o => o ++ [(u, NothingToSell)]) s1).
Proof.
  intros Hw Hz Ho. cbv zeta.
  rewrite (callback_sell_all w u s kp Hw). cbv zeta.
  rewrite Hz, Ho. simpl snd.
  set (s1 := set_outbox _ _).
  assert (Ht : sell_all_total w' s1 u = 0%float).
  { unfold sell_all_total, sell_all_amounts, positions_of, pair_or_empty.
    subst s1. state_simpl. rewrite lookup_insert_eq. simpl default.
    by rewrite filter_matches_nothing_left. }
  split; [exact Ht|].
  rewrite (callback_sell_all w' u s1 kp) by (subst s1; state_simpl; exact Hw).
  cbv zeta. by rewrite Ht.
Qed.

Lemma sell_all_twice_sells_once_witness :
  handle_buy_sell_callback (Sample.world Sample.broke Sample.no_pairs) 1 "sell_all"
    (snd (handle_buy_sell_callback (Sample.world Sample.sent (Sample.quote "2")) 1
            "sell_all" Sample.holding))
  = (inr tt,
     set_outbox (fun o => o ++ [(1%Z, NothingToSell)])
       (snd (handle_buy_sell_callback (Sample.world Sample.sent (Sample.quote "2")) 1
               "sell_all" Sample.holding))).
Proof.
  eapply (sell_all_twice_sells_once
            (Sample.world Sample.sent (Sample.quote "2"))
            (Sample.world Sample.broke Sample.no_pairs) 1 Sample.holding
            Sample.alice).
  - vm_compute. reflexivity.
  - vm_compute. reflexivity.
  - vm_compute. reflexivity.
Defined.

(** ** Buying and what "sell all" adds up *)

(** X16: After a successful buy (preset or custom) the amounts that "sell
    all" adds up for the selected pair are the earlier ones followed by
    the amount bought, so the next "sell all" offers the interpreter's
    [sum] of that list; after a failed buy they are as they were. *)
Theorem buy_joins_sell_all_amounts w s u kp amt op :
  BuyOp w s u amt op ->
  user_wallets s !! u = Some kp ->
  (forall sig calls,
      transfer_outcome w amt kp = Succeeded sig calls ->
      sell_all_amounts (snd (op s)) u = sell_all_amounts s u ++ [amt]
      /\ forall w',
          sell_all_total w' (snd (op s)) u
          = py_sum w' (sell_all_amounts s u ++ [amt]))
  /\ (forall e calls,
      transfer_outcome w amt kp = Failed e calls ->
      sell_all_amounts (snd (op s)) u = sell_all_amounts s u).
Proof.
  intros Hop Hw.
  assert (Hok : forall f g h pos,
             pair pos = pair_or_empty s u -> amount pos = amt ->
             sell_all_amounts
               (set_outbox f
                  (set_positions
                     (fun m => <[u := positions_of s u ++ [pos]]> m)
                     (set_rpc_log g (set_user_data h s)))) u
             = sell_all_amounts s u ++ [amt]).
  { intros f g h pos Hp Ha.
    unfold sell_all_amounts, positions_of, pair_or_empty. state_simpl.
    rewrite lookup_insert_eq. simpl default.
    rewrite List.filter_app. simpl (List.filter _ [pos]).
    assert (Hm : matches (default "" (user_pairs s !! u)) pos = true).
    { unfold matches. unfold pair_or_empty in Hp. rewrite Hp.
      apply String.eqb_refl. }
    rewrite Hm, map_app. simpl (map amount [pos]). by rewrite Ha. }
  assert (Hsum : forall s1,
             sell_all_amounts s1 u = sell_all_amounts s u ++ [amt] ->
             forall w',
               sell_all_total w' s1 u = py_sum w' (sell_all_amounts s u ++ [amt])).
  { intros s1 Hs1 w'. unfold sell_all_total. rewrite Hs1.
    by destruct (sell_all_amounts s u). }
  destruct Hop as [data a Hb Hc Hi Hp | text Hd Hp].
  - rewrite (callback_buy w u data a amt s kp) by done.
    split; intros ? calls ->; simpl snd; [|done].
    assert (H := Hok (fun o => o ++ [(u, PurchaseExecuted amt sig (pubkey kp))])
                     (fun l => l ++ calls) (fun ud => ud)
                     (mkPosition amt (buy_price w s u) sig (time_time w)
                                 (pair_or_empty s u)) eq_refl eq_refl).
    split; [exact H | by apply Hsum].
  - rewrite (message_handler_buy w u text s kp), Hp by done. cbv zeta.
    split; intros ? calls ->; simpl snd; [|done].
    assert (H := Hok (fun o => o ++ [(u, PurchaseExecuted amt sig (pubkey kp))])
                     (fun l => l ++ calls)
                     (write_flag u "awaiting_buy_custom" false)
                     (mkPosition amt (buy_price w s u) sig (time_time w)
                                 (pair_or_empty s u)) eq_refl eq_refl).
    split; [exact H | by apply Hsum].
Qed.

Lemma buy_joins_sell_all_amounts_witness :
  sell_all_amounts
    (snd (handle_buy_sell_callback (Sample.world Sample.sent (Sample.quote "2"))
            1 "buy_0.5" Sample.holding)) 1
  = sell_all_amounts Sample.holding 1 ++ [0.5%float]
  /\ sell_all_total (Sample.world_312 Sample.sent (Sample.quote "2"))
       (snd (handle_buy_sell_callback (Sample.world Sample.sent (Sample.quote "2"))
               1 "buy_0.5" Sample.holding)) 1
     = PyFloat.sum_compensated (sell_all_amounts Sample.holding 1 ++ [0.5%float]).
Proof.
  assert (Hop : BuyOp (Sample.world Sample.sent (Sample.quote "2"))
                  Sample.holding 1 0.5%float
                  (handle_buy_sell_callback
                     (Sample.world Sample.sent (Sample.quote "2")) 1 "buy_0.5")).
  { apply (BuyPreset _ _ _ _ "buy_0.5" "0.5"); [reflexivity | discriminate | reflexivity..]. }
  destruct (buy_joins_sell_all_amounts
              (Sample.world Sample.sent (Sample.quote "2")) Sample.holding 1
              Sample.alice 0.5%float _ Hop) as [Hok _].
  - vm_compute. reflexivity.
  - destruct (Hok "sig-1"
                [GetLatestBlockhash;
                 SendTransaction
                   (mkTransaction
                      [mkTransferParams "A1icePubkey4444" DEX_WALLET_STR 500000000]
                      "A1icePubkey4444" "blockhash-1" [Sample.alice] true)])
      as [Hamounts Htotal]; [vm_compute; reflexivity|].
    split; [exact Hamounts|].
    exact (Htotal (Sample.world_312 Sample.sent (Sample.quote "2"))).
Defined.

(** ** The price oracle *)

(** X17: [get_dexscreener_info] yields a price exactly when the request
    returns a JSON object whose "pairs" is a list beginning with an
    object that has a truthy "priceUsd" which [float] accepts, and the
    price is that float.  In every other case (transport or JSON error,
    no or empty "pairs", a falsy or unparsable price) there is none;
    later entries of "pairs" are never looked at. *)
Theorem oracle_price_comes_from_first_pair w chain_id pair_id p :
  info_price (get_dexscreener_info w chain_id pair_id) = Some p <->
  exists data pair_info rest v,
    requests_get_json w (pair_url chain_id pair_id) = inr (JObj data)
    /\ jlookup "pairs" data = Some (JArr (JObj pair_info :: rest))
    /\ jlookup "priceUsd" pair_info = Some v
    /\ json_truthy v = true
    /\ float_of_json w v = Some p.
Proof.
  unfold get_dexscreener_info, pair_url, info_price. cbv zeta. split.
  - intros H.
    repeat match type of H with
           | context [match ?x with _ => _ end] =>
               lazymatch x with
               | context [match _ with _ => _ end] => fail
               | _ => destruct x eqn:?
               end
           end; try discriminate H; simpl in H; try discriminate H.
    injection H as <-. eauto 10.
  - intros (data & pair_info & rest & v & -> & -> & -> & -> & ->). done.
Qed.


(** ** Setting an alert and the next scan *)


